(** * Sensor.c: rolling statistics, hysteresis flags and distance lookup

    A shallow embedding of [Sensor.h] / [Sensor.c] and the proofs of the
    properties stated about them.

    Platform model.  The header selects [stdint.h] under [__GNUC__]; the
    embedding fixes the usual GCC data model for it: [int] is 32 bits wide,
    conversion of an out-of-range value to a signed type wraps modulo 2^32,
    and [double] is IEEE 754 binary64 (Rocq's primitive [float]).  Unsigned
    fields are integers of [Z] with the wrap-around written out ([u8], [u16],
    [u32]).  The two things C leaves undefined here, reading an array outside
    its bounds and converting a double that does not fit to [uint16_t], make
    the embedded function return [None].  The library call [pow(x, 2)] is
    taken to return the correctly rounded square [x * x].  A library whose
    [pow] is not correctly rounded can differ from it in the last bit of a
    square that is not 0; [pow(0, 2)] is 0 in either (C11 F.10.4.4). *)

From Stdlib Require Import ZArith Lia Bool List.
From Stdlib Require Import Floats Uint63.
From stdpp Require Import base option list numbers.

Local Open Scope Z_scope.

(** ** Fixed-width integers *)

Definition u8 (z : Z) : Z := z mod 2 ^ 8.
Definition u16 (z : Z) : Z := z mod 2 ^ 16.
Definition u32 (z : Z) : Z := z mod 2 ^ 32.

(** [(int) x] for a [uint32_t] value [x] (GCC: reduction modulo 2^32 into
    the range of [int]). *)
Definition to_int (z : Z) : Z :=
  let r := z mod 2 ^ 32 in
  if r <? 2 ^ 31 then r else r - 2 ^ 32.

(** The values a [uint16_t] parameter can hold. *)
Definition is_u16 (z : Z) : Prop := 0 <= z < 2 ^ 16.

(** ** Doubles *)

Module Double.

(** [(double) z] for an unsigned integer [z] of at most 32 bits: exact. *)
Definition of_Z (z : Z) : float := PrimFloat.of_uint63 (Uint63.of_Z z).

Definition two52 : float := Eval vm_compute in of_Z (2 ^ 52).
Definition two53inv : float :=
  Eval vm_compute in (PrimFloat.div 1 (of_Z (2 ^ 53))).

(** [floor] of [math.h].  Below 2^52 in magnitude, adding and subtracting
    2^52 rounds to an integer, which is one too large when it exceeds the
    argument; from 2^52 on every double is an integer, and infinities and
    NaN are returned as they are. *)
Definition floor (x : float) : float :=
  if (abs x <? two52)%float then
    if (x =? 0)%float then x
    else
      let y := if (0 <? x)%float then ((x + two52) - two52)%float
               else ((x - two52) + two52)%float in
      if (x <? y)%float then (y - 1)%float else y
  else x.

(** The integer a double [t] with [0 <= t < 2^52] and no fractional part
    stands for, read off the mantissa of [(t + 2^52) / 2^53]. *)
Definition int_of_float (t : float) : Z :=
  Uint63.to_Z (normfr_mantissa ((t + two52) * two53inv)%float - 4503599627370496)%uint63.

(** [(uint16_t) x]: the value truncated toward zero when that fits
    [uint16_t], undefined otherwise (C11 6.3.1.4). *)
Definition to_uint16 (x : float) : option Z :=
  if ((-1 <? x) && (x <? 65536))%float
  then Some (int_of_float (floor (abs x)))
  else None.

(** [pow(x, 2)], as the correctly rounded square *)
Definition pow2 (x : float) : float := (x * x)%float.

End Double.

(** ** Sensor.h *)

Definition SENSOR_HIST_LEN : Z := 50.
Definition PS_WINDOW : Z := 25.
Definition ALS_WINDOW : Z := 25.
Definition DIST_LOOKUP_LEN : Z := 16.

Definition distanceTable : list Z :=
  [0; 2; 4; 6; 8; 10; 12; 14; 16; 18; 20; 22; 24; 26; 28; 30].

(** [proxTable] is a pointer to a table owned by the caller: the embedding
    carries the contents of that table. *)
Record Sensor : Type := mkSensor {
  index : Z;
  sampleCount : Z;
  proxTable : list Z;
  psHist : list Z;
  alsHist : list Z;
  psMean : Z;
  psSTD : float;
  alsMean : Z;
  alsSTD : float;
  estimatedDistance : float;
  psProxMin : Z;
  psProxMax : Z;
  inProximity : Z;
  isBlocked : Z;
  psWindowSum : Z;
  alsWindowSum : Z
}.

(** ** Sensor.c *)

(** [a[i]] for an array behind a pointer: [None] outside the array. *)
Definition read (a : list Z) (i : Z) : option Z :=
  if i <? 0 then None else a !! Z.to_nat i.

(** [a[i]] and [a[i] = v] for the history arrays of the struct, whose indices
    the code keeps below 50.  The statements also write [elem a i] for
    the entry [a[i]] of a table. *)
Definition elem (a : list Z) (i : Z) : Z := a !!! Z.to_nat i.
Definition store (a : list Z) (i : Z) (v : Z) : list Z := <[Z.to_nat i := v]> a.

Definition Reset_Sensor (sensor : Sensor) : Sensor :=
  {| index := index sensor;
     sampleCount := 0;
     proxTable := proxTable sensor;
     psHist := replicate (Z.to_nat SENSOR_HIST_LEN) 0;
     alsHist := replicate (Z.to_nat SENSOR_HIST_LEN) 0;
     psMean := 0;
     psSTD := 0%float;
     alsMean := 0;
     alsSTD := 0%float;
     estimatedDistance := estimatedDistance sensor;
     psProxMin := psProxMin sensor;
     psProxMax := psProxMax sensor;
     inProximity := 0;
     isBlocked := 0;
     psWindowSum := 0;
     alsWindowSum := 0 |}.

(** [sensor] is the memory the caller hands in, whatever it holds. *)
Definition Init_Sensor (sensor : Sensor) (index0 psProxMin0 psProxMax0 : Z)
    (proxTable0 : list Z) : Sensor :=
  Reset_Sensor
    {| index := index0;
       sampleCount := sampleCount sensor;
       proxTable := proxTable0;
       psHist := psHist sensor;
       alsHist := alsHist sensor;
       psMean := psMean sensor;
       psSTD := psSTD sensor;
       alsMean := alsMean sensor;
       alsSTD := alsSTD sensor;
       estimatedDistance := estimatedDistance sensor;
       psProxMin := psProxMin0;
       psProxMax := psProxMax0;
       inProximity := inProximity sensor;
       isBlocked := isBlocked sensor;
       psWindowSum := psWindowSum sensor;
       alsWindowSum := alsWindowSum sensor |}.

(** The scan of [Distance_Lookup]: [n] iterations are left and [i] is the
    loop variable, so [i + n = tableLen] throughout. *)
Fixpoint Distance_Lookup_scan (n : nat) (i : Z) (psVal : Z)
    (proxTable0 distTable : list Z) (tableLen : Z) : option float :=
  match n with
  | O => d ← read distTable (tableLen - 1); Some (Double.of_Z d)
  | S n' =>
      p ← read proxTable0 i;
      if p <=? psVal then
        if i =? 0 then d ← read distTable i; Some (Double.of_Z d)
        else
          d1 ← read distTable (i - 1);
          p1 ← read proxTable0 (i - 1);
          d ← read distTable i;
          Some (Double.of_Z d1 +
                (Double.of_Z psVal - Double.of_Z p1) *
                (Double.of_Z d - Double.of_Z d1) /
                (Double.of_Z p - Double.of_Z p1))%float
      else Distance_Lookup_scan n' (u8 (i + 1)) psVal proxTable0 distTable tableLen
  end.

Definition Distance_Lookup (psVal : Z) (proxTable0 distTable : list Z)
    (tableLen : Z) : option float :=
  Distance_Lookup_scan (Z.to_nat tableLen) 0 psVal proxTable0 distTable tableLen.

(** The loop that accumulates the squared deviations: [n] iterations are
    left, [i] is the loop variable.  Returns [errorSum] and the value of
    [i] when the loop is left. *)
Fixpoint STD_loop (n : nat) (i : Z) (count : Z) (hist : list Z)
    (meanDouble errorSum : float) : float * Z :=
  match n with
  | O => (errorSum, i)
  | S n' =>
      if 0 <=? to_int count - i then
        let windowInd := u16 (Z.rem (to_int count - i) SENSOR_HIST_LEN) in
        STD_loop n' (u16 (i + 1)) count hist meanDouble
          (errorSum +
           Double.pow2 (Double.of_Z (elem hist windowInd) - meanDouble))%float
      else (errorSum, i)
  end.

Definition truthy (z : Z) : bool := negb (z =? 0).

(** The blocks of [Update_Sensor], one definition per commented block of
    the source, in its order. *)

(** Update PS rolling window sum *)
Definition PS_window_sum (sensor : Sensor) (psVal : Z) : Z :=
  if sampleCount sensor <? PS_WINDOW then u32 (psWindowSum sensor + psVal)
  else
    let windowInd := u16 (u32 (sampleCount sensor - PS_WINDOW) mod SENSOR_HIST_LEN) in
    u32 (u32 (psWindowSum sensor - elem (psHist sensor) windowInd) + psVal).

(** Update ALS rolling window sum *)
Definition ALS_window_sum (sensor : Sensor) (alsVal : Z) : Z :=
  if sampleCount sensor <? ALS_WINDOW then u32 (alsWindowSum sensor + alsVal)
  else
    let windowInd := u16 (u32 (sampleCount sensor - ALS_WINDOW) mod SENSOR_HIST_LEN) in
    u32 (alsWindowSum sensor + (alsVal - elem (alsHist sensor) windowInd)).

(** Calculate PS Mean from window sum: [meanDouble] *)
Definition PS_mean (count windowSum : Z) : float :=
  if PS_WINDOW <=? u32 (count + 1)
  then (Double.of_Z windowSum / Double.of_Z PS_WINDOW)%float
  else (Double.of_Z windowSum / Double.of_Z (u32 (count + 1)))%float.

(** Calculate ALS mean from window: [meanDouble] *)
Definition ALS_mean (count windowSum : Z) : float :=
  if ALS_WINDOW - 1 <=? count
  then (Double.of_Z windowSum / Double.of_Z ALS_WINDOW)%float
  else (Double.of_Z windowSum / Double.of_Z (u32 (count + 1)))%float.

(** Calculate PS STD, calculate ALS STD: the two blocks differ in the
    array they read; both windows are 25 long. *)
Definition STD (window count : Z) (hist : list Z) (meanDouble : float) : float :=
  let '(errorSum, i) := STD_loop (Z.to_nat window) 0 count hist meanDouble 0%float in
  PrimFloat.sqrt (errorSum / Double.of_Z i)%float.

(** Update inProximity flag *)
Definition proximity_flag (sensor : Sensor) (psVal : Z) : Z :=
  if truthy (inProximity sensor) && (psVal <=? psProxMin sensor) then 0
  else if negb (truthy (inProximity sensor)) && (psProxMax sensor <=? psVal) then 1
  else inProximity sensor.

(** Update isBlocked flag; [inProximity1], [alsMean1] and [alsSTD1] are the
    fields as this call has just set them. *)
Definition blocked_flag (sensor : Sensor) (inProximity1 alsMean1 : Z)
    (alsSTD1 : float) : Z :=
  if negb (truthy (isBlocked sensor)) && truthy inProximity1 &&
     (alsMean1 =? 0) && (alsSTD1 =? 0)%float then 1
  else if truthy (isBlocked sensor) && negb (truthy inProximity1) then 0
  else isBlocked sensor.

Definition Update_Sensor (sensor : Sensor) (psVal alsVal : Z) : option Sensor :=
  let count := sampleCount sensor in
  let psWindowSum1 := PS_window_sum sensor psVal in
  let alsWindowSum1 := ALS_window_sum sensor alsVal in
  (* Circular buffer for history *)
  let ind := u16 (count mod SENSOR_HIST_LEN) in
  let psHist1 := store (psHist sensor) ind psVal in
  let alsHist1 := store (alsHist sensor) ind alsVal in
  let psMeanDouble := PS_mean count psWindowSum1 in
  psMean1 ← Double.to_uint16 (Double.floor psMeanDouble);
  (* Get estimated distance from PS mean *)
  estimatedDistance1 ←
    Distance_Lookup psMean1 (proxTable sensor) distanceTable DIST_LOOKUP_LEN;
  let psSTD1 := STD PS_WINDOW count psHist1 psMeanDouble in
  let alsMeanDouble := ALS_mean count alsWindowSum1 in
  alsMean1 ← Double.to_uint16 (Double.floor alsMeanDouble);
  let alsSTD1 := STD ALS_WINDOW count alsHist1 alsMeanDouble in
  let inProximity1 := proximity_flag sensor psVal in
  let isBlocked1 := blocked_flag sensor inProximity1 alsMean1 alsSTD1 in
  Some {| index := index sensor;
          sampleCount := u32 (count + 1);
          proxTable := proxTable sensor;
          psHist := psHist1;
          alsHist := alsHist1;
          psMean := psMean1;
          psSTD := psSTD1;
          alsMean := alsMean1;
          alsSTD := alsSTD1;
          estimatedDistance := estimatedDistance1;
          psProxMin := psProxMin sensor;
          psProxMax := psProxMax sensor;
          inProximity := inProximity1;
          isBlocked := isBlocked1;
          psWindowSum := psWindowSum1;
          alsWindowSum := alsWindowSum1 |}.

(** ** Sequences of calls *)

(** One [Update_Sensor] call per sample pair [(psVal, alsVal)], in order. *)
Fixpoint run (sensor : Sensor) (samples : list (Z * Z)) : option Sensor :=
  match samples with
  | [] => Some sensor
  | (psVal, alsVal) :: rest =>
      sensor' ← Update_Sensor sensor psVal alsVal; run sensor' rest
  end.

(** The sensor as it is observed after each call. *)
Fixpoint run_trace (sensor : Sensor) (samples : list (Z * Z))
    : option (list Sensor) :=
  match samples with
  | [] => Some []
  | (psVal, alsVal) :: rest =>
      sensor' ← Update_Sensor sensor psVal alsVal;
      trace ← run_trace sensor' rest;
      Some (sensor' :: trace)
  end.

(** ** Vocabulary of the properties *)

Definition Zsum (l : list Z) : Z := foldr Z.add 0 l.

(** The last [k] elements of [l], oldest first (all of [l] when it has
    fewer). *)
Definition last_samples (k : nat) (l : list Z) : list Z :=
  drop (length l - k) l.

(** The square root of the mean squared deviation of the entries [w] from
    [meanDouble], accumulated in the order of [w]. *)
Definition deviation (w : list Z) (meanDouble : float) : float :=
  PrimFloat.sqrt
    (fold_left (fun e x => e + Double.pow2 (Double.of_Z x - meanDouble))%float
       w 0%float
     / Double.of_Z (Z.of_nat (length w)))%float.

(** What the history array holds after the samples [l]: slot [k mod 50]
    holds sample [k], for the last 50 samples. *)
Definition hist_holds (hist : list Z) (l : list Z) : Prop :=
  length hist = 50%nat /\
  forall k : Z, 0 <= k -> Z.of_nat (length l) - 50 <= k < Z.of_nat (length l) ->
    elem hist (k mod 50) = l !!! Z.to_nat k.

(** The state reached by the calls [l] from a reset sensor whose
    [proxTable] points to [table]. *)
Record reached (table : list Z) (l : list (Z * Z)) (s : Sensor) : Prop := {
  reached_count : sampleCount s = Z.of_nat (length l);
  reached_table : proxTable s = table;
  reached_psHist : hist_holds (psHist s) l.*1;
  reached_alsHist : hist_holds (alsHist s) l.*2;
  reached_psSum : psWindowSum s = Zsum (last_samples 25 l.*1);
  reached_alsSum : alsWindowSum s = Zsum (last_samples 25 l.*2)
}.

(** The value [Distance_Lookup] returns at a match at index [j]: the table
    distance at index 0, the interpolation between the entries [j - 1] and
    [j] after it. *)
Definition matched (psVal : Z) (proxTable0 distTable : list Z) (j : Z) : float :=
  if j =? 0 then Double.of_Z (elem distTable 0)
  else
    (Double.of_Z (elem distTable (j - 1)) +
     (Double.of_Z psVal - Double.of_Z (elem proxTable0 (j - 1))) *
     (Double.of_Z (elem distTable j) - Double.of_Z (elem distTable (j - 1))) /
     (Double.of_Z (elem proxTable0 j) - Double.of_Z (elem proxTable0 (j - 1))))%float.

(** What the last of the calls [l] leaves in the statistics fields. *)
Definition after_call (l : list (Z * Z)) (s : Sensor) : Prop :=
  let n := Z.of_nat (length l) in
  let d := Z.min n 25 in
  psMean s = psWindowSum s / d /\
  alsMean s = alsWindowSum s / d /\
  psSTD s =
    (if n <=? 2 ^ 31
     then deviation (reverse (last_samples 25 l.*1))
            (Double.of_Z (psWindowSum s) / Double.of_Z d)%float
     else nan) /\
  alsSTD s =
    (if n <=? 2 ^ 31
     then deviation (reverse (last_samples 25 l.*2))
            (Double.of_Z (alsWindowSum s) / Double.of_Z d)%float
     else nan).

(** ** Exhaustive checks of the double arithmetic *)

(** [f] on the [p] integers from [base] on. *)
Fixpoint all_from (p : positive) (base : int) (f : int -> bool) : bool :=
  match p with
  | xH => f base
  | xO p' => all_from p' base f && all_from p' (base + Uint63.of_pos p')%uint63 f
  | xI p' => f base && all_from p' (base + 1)%uint63 f
             && all_from p' (base + 1 + Uint63.of_pos p')%uint63 f
  end.

(** The window sizes a mean is taken over. *)
Definition windows : list Z := Eval vm_compute in map Z.of_nat (seq 1 25).

(** [floor((double) a / d)] is the double of the integer quotient. *)
Definition mean_check (d a : int) : bool :=
  PrimFloat.Leibniz.eqb
    (Double.floor (PrimFloat.of_uint63 a / PrimFloat.of_uint63 d)%float)
    (PrimFloat.of_uint63 (a / d)%uint63).

(** The mean of [k] copies of [v] is [v], and [v] deviates from it by 0. *)
Definition const_check (k v : int) : bool :=
  let x := PrimFloat.of_uint63 v in
  let m := (PrimFloat.of_uint63 (k * v)%uint63 / PrimFloat.of_uint63 k)%float in
  PrimFloat.Leibniz.eqb m x
  && PrimFloat.Leibniz.eqb (0 + Double.pow2 (x - m))%float 0%float
  && PrimFloat.Leibniz.eqb (PrimFloat.sqrt (0 / PrimFloat.of_uint63 k))%float 0%float.

(** [(uint16_t)] gives back the integer of a double made from one. *)
Definition cast_check (q : int) : bool :=
  match Double.to_uint16 (PrimFloat.of_uint63 q) with
  | Some z => z =? Uint63.to_Z q
  | None => false
  end.

(** ** Concrete inputs *)

(** A block of memory with every field zero and no table behind the
    pointer. *)
Definition zeroSensor : Sensor :=
  mkSensor 0 0 [] [] [] 0 0%float 0 0%float 0%float 0 0 0 0 0 0.

(** A calibration table of [DIST_LOOKUP_LEN] entries, descending. *)
Definition sampleTable : list Z :=
  [150; 140; 130; 120; 110; 100; 90; 80; 70; 60; 50; 40; 30; 20; 10; 0].

(** The nine sample pairs of the end-to-end scenario. *)
Definition scenario : list (Z * Z) :=
  [(0, 50); (0, 50); (0, 50); (12, 50); (12, 50); (12, 50); (4, 50); (4, 50); (4, 50)].

(** A sensor as [Init_Sensor] leaves it, with thresholds 5 and 10 and the
    table [sampleTable]. *)
Definition demoSensor : Sensor := Init_Sensor zeroSensor 0 5 10 sampleTable.

(** [n] calls with the same sample pair. *)
Definition steady (n : Z) (psVal alsVal : Z) : list (Z * Z) :=
  replicate (Z.to_nat n) (psVal, alsVal).

(** The sensor after the nine calls of the scenario. *)
Definition scenarioState : Sensor :=
  Eval vm_compute in default demoSensor (run (Reset_Sensor demoSensor) scenario).

(** The sensor after the first four calls of the scenario, in proximity, and
    after one more call with a proximity sample between the thresholds. *)
Definition nearState : Sensor :=
  Eval vm_compute in default demoSensor (run demoSensor (take 4 scenario)).
Definition nearStateNext : Sensor :=
  Eval vm_compute in default demoSensor (Update_Sensor nearState 7 50).

(** A sensor initialised with exit threshold 10 and enter threshold 5. *)
Definition crossedSensor : Sensor := Init_Sensor zeroSensor 0 10 5 sampleTable.
Definition crossedSensorNext : Sensor :=
  Eval vm_compute in default crossedSensor (Update_Sensor crossedSensor 7 50).

(** Four calls in the dark, the last one entering proximity. *)
Definition darkSamples : list (Z * Z) := [(0, 0); (0, 0); (0, 0); (12, 0)].

(** The sensor after the dark calls, blocked, and after one more call in
    proximity with ambient light back. *)
Definition darkState : Sensor :=
  Eval vm_compute in default demoSensor (run (Reset_Sensor demoSensor) darkSamples).
Definition darkStateNext : Sensor :=
  Eval vm_compute in default demoSensor (Update_Sensor darkState 12 50).

(** A sensor whose table pointer has no entry behind it. *)
Definition tablelessSensor : Sensor := Init_Sensor zeroSensor 0 5 10 [].

(** [nearState] after one more call with a large proximity sample. *)
Definition farState : Sensor :=
  Eval vm_compute in default demoSensor (Update_Sensor nearState 7000 50).

(** The scenario followed by 25 calls with the steady sample pair (7, 50). *)
Definition settledSamples : list (Z * Z) := scenario ++ steady 25 7 50.

(** * Proofs *)

(** ** Double arithmetic on the integers the sensor meets *)

Section Checks.

Lemma wB_value : wB = 9223372036854775808.
Proof. reflexivity. Qed.

Lemma of_Z_small (z : Z) : 0 <= z < 2 ^ 62 -> Uint63.to_Z (Uint63.of_Z z) = z.
Proof.
  intros Hz. rewrite Uint63.of_Z_spec, wB_value. apply Z.mod_small. lia.
Qed.

Lemma of_Z_add (a b : Z) :
  (Uint63.of_Z a + Uint63.of_Z b)%uint63 = Uint63.of_Z (a + b).
Proof.
  apply Uint63.to_Z_inj.
  rewrite Uint63.add_spec, !Uint63.of_Z_spec. symmetry. apply Z.add_mod.
  rewrite wB_value. lia.
Qed.

Lemma of_Z_mul (a b : Z) :
  (Uint63.of_Z a * Uint63.of_Z b)%uint63 = Uint63.of_Z (a * b).
Proof.
  apply Uint63.to_Z_inj.
  rewrite Uint63.mul_spec, !Uint63.of_Z_spec. symmetry. apply Z.mul_mod.
  rewrite wB_value. lia.
Qed.

Lemma of_Z_div (a b : Z) :
  0 <= a < 2 ^ 62 -> 0 < b < 2 ^ 62 ->
  (Uint63.of_Z a / Uint63.of_Z b)%uint63 = Uint63.of_Z (a / b).
Proof.
  intros Ha Hb. apply Uint63.to_Z_inj.
  rewrite Uint63.div_spec, !of_Z_small; try lia.
  split; [apply Z.div_pos; lia|].
  apply Z.le_lt_trans with a; [|lia]. apply Z.div_le_upper_bound; nia.
Qed.

Lemma all_from_spec (p : positive) :
  forall (b : Z) (f : int -> bool),
    all_from p (Uint63.of_Z b) f = true ->
    forall k : Z, 0 <= k < Z.pos p -> f (Uint63.of_Z (b + k)) = true.
Proof.
  induction p as [p IH | p IH |]; intros b f Hall k Hk; cbn [all_from] in Hall.
  - apply andb_prop in Hall as [Hall H2]. apply andb_prop in Hall as [H0 H1].
    change 1%uint63 with (Uint63.of_Z 1) in H1, H2.
    change (Uint63.of_pos p) with (Uint63.of_Z (Z.pos p)) in H2.
    rewrite of_Z_add in H1. rewrite !of_Z_add in H2.
    destruct (Z.eq_dec k 0) as [-> | Hk0]; [now rewrite Z.add_0_r|].
    destruct (Z_lt_le_dec (k - 1) (Z.pos p)) as [Hlt | Hge].
    + replace (b + k) with (b + 1 + (k - 1)) by lia. apply IH; [exact H1 | lia].
    + replace (b + k) with (b + 1 + Z.pos p + (k - 1 - Z.pos p)) by lia.
      apply IH; [exact H2 | lia].
  - apply andb_prop in Hall as [H1 H2].
    change (Uint63.of_pos p) with (Uint63.of_Z (Z.pos p)) in H2.
    rewrite of_Z_add in H2.
    destruct (Z_lt_le_dec k (Z.pos p)) as [Hlt | Hge].
    + apply IH; [exact H1 | lia].
    + replace (b + k) with (b + Z.pos p + (k - Z.pos p)) by lia.
      apply IH; [exact H2 | lia].
  - replace k with 0 by lia. now rewrite Z.add_0_r.
Qed.

Lemma In_windows (d : Z) : 1 <= d <= 25 -> In d windows.
Proof. intros Hd. unfold windows. cbn [In]. lia. Qed.

(** The three checks run here, once; they are stated unfolded so that
    their uses below match them syntactically. *)
Lemma means_checked_true :
  forall d, In d windows ->
    all_from (Z.to_pos (65535 * d + 1)) (Uint63.of_Z 0)
      (mean_check (Uint63.of_Z d)) = true.
Proof.
  apply forallb_forall. vm_compute. reflexivity.
Qed.

Lemma consts_checked_true :
  forall k, In k windows ->
    all_from 65536 (Uint63.of_Z 0) (const_check (Uint63.of_Z k)) = true.
Proof.
  apply forallb_forall. vm_compute. reflexivity.
Qed.

Lemma casts_checked_true : all_from 65536 (Uint63.of_Z 0) cast_check = true.
Proof. vm_compute. reflexivity. Qed.

(** The floor of a mean of at most 25 [uint16_t] values is the integer
    quotient, exactly. *)
Lemma floor_mean (d a : Z) :
  1 <= d <= 25 -> 0 <= a <= 65535 * d ->
  Double.floor (Double.of_Z a / Double.of_Z d)%float = Double.of_Z (a / d).
Proof.
  intros Hd Ha.
  pose proof (means_checked_true d (In_windows d Hd)) as Hc.
  apply all_from_spec with (k := a) in Hc; [|rewrite Z2Pos.id; lia].
  unfold mean_check in Hc. apply FloatAxioms.Leibniz.eqb_spec in Hc.
  rewrite Z.add_0_l, of_Z_div in Hc by lia. exact Hc.
Qed.

Lemma to_uint16_of_Z (q : Z) :
  0 <= q <= 65535 -> Double.to_uint16 (Double.of_Z q) = Some q.
Proof.
  intros Hq. pose proof casts_checked_true as Hc.
  apply all_from_spec with (k := q) in Hc; [|lia].
  unfold cast_check in Hc. rewrite Z.add_0_l in Hc. unfold Double.of_Z.
  destruct (Double.to_uint16 _) as [z|]; [|discriminate].
  apply Z.eqb_eq in Hc. rewrite of_Z_small in Hc by lia. now subst.
Qed.

(** A window of [k] copies of [v]: the mean is [v], no entry deviates
    from it, and the deviation of the window is 0. *)
Lemma const_mean (k v : Z) :
  1 <= k <= 25 -> 0 <= v <= 65535 ->
  (Double.of_Z (k * v) / Double.of_Z k)%float = Double.of_Z v /\
  (0 + Double.pow2 (Double.of_Z v - Double.of_Z v))%float = 0%float /\
  PrimFloat.sqrt (0 / Double.of_Z k)%float = 0%float.
Proof.
  intros Hk Hv. pose proof (consts_checked_true k (In_windows k Hk)) as Hc.
  apply all_from_spec with (k := v) in Hc; [|lia].
  unfold const_check in Hc. rewrite Z.add_0_l, of_Z_mul in Hc.
  apply andb_prop in Hc as [Hc H3]. apply andb_prop in Hc as [H1 H2].
  apply FloatAxioms.Leibniz.eqb_spec in H1, H2, H3.
  unfold Double.of_Z. rewrite H1 in H2. auto.
Qed.

End Checks.

(** ** Sums of the last samples *)

Section Windows.

Lemma Zsum_cons (x : Z) (l : list Z) : Zsum (x :: l) = x + Zsum l.
Proof. reflexivity. Qed.

Lemma Zsum_app (l1 l2 : list Z) : Zsum (l1 ++ l2) = Zsum l1 + Zsum l2.
Proof.
  induction l1 as [|x l1 IH]; [reflexivity|].
  rewrite <- app_comm_cons, !Zsum_cons, IH. lia.
Qed.

Lemma Zsum_snoc (l : list Z) (x : Z) : Zsum (l ++ [x]) = Zsum l + x.
Proof. rewrite Zsum_app, Zsum_cons. cbn. lia. Qed.

Lemma Zsum_reverse (l : list Z) : Zsum (reverse l) = Zsum l.
Proof.
  induction l as [|x l IH]; [reflexivity|].
  rewrite reverse_cons, Zsum_snoc, Zsum_cons, IH. lia.
Qed.

Lemma Zsum_replicate (n : nat) (v : Z) : Zsum (replicate n v) = Z.of_nat n * v.
Proof.
  induction n as [|n IH]; [reflexivity|].
  cbn [replicate]. rewrite Zsum_cons, IH. lia.
Qed.

Lemma Zsum_bounds (l : list Z) :
  Forall is_u16 l -> 0 <= Zsum l <= 65535 * Z.of_nat (length l).
Proof.
  induction 1 as [|x l Hx _ IH]; [cbn; lia|].
  rewrite Zsum_cons. cbn [length]. unfold is_u16 in Hx. lia.
Qed.

Lemma length_last_samples (k : nat) (l : list Z) :
  length (last_samples k l) = Nat.min k (length l).
Proof. unfold last_samples. rewrite length_drop. lia. Qed.

Lemma Forall_last_samples (P : Z -> Prop) (k : nat) (l : list Z) :
  Forall P l -> Forall P (last_samples k l).
Proof. apply Forall_drop. Qed.

Lemma last_samples_bounds (k : nat) (l : list Z) :
  Forall is_u16 l ->
  0 <= Zsum (last_samples k l) <= 65535 * Z.min (Z.of_nat k) (Z.of_nat (length l)).
Proof.
  intros Hl. pose proof (Zsum_bounds _ (Forall_last_samples _ k _ Hl)) as H.
  rewrite length_last_samples in H. lia.
Qed.

Lemma last_samples_snoc_short (k : nat) (l : list Z) (x : Z) :
  (length l < k)%nat -> last_samples k (l ++ [x]) = last_samples k l ++ [x].
Proof.
  intros Hk. unfold last_samples. rewrite length_app. cbn [length].
  replace (length l + 1 - k)%nat with 0%nat by lia.
  replace (length l - k)%nat with 0%nat by lia. reflexivity.
Qed.

Lemma last_samples_snoc_full (k : nat) (l : list Z) (x : Z) :
  (0 < k <= length l)%nat ->
  last_samples k l = l !!! (length l - k)%nat :: drop (S (length l - k)) l /\
  last_samples k (l ++ [x]) = drop (S (length l - k)) l ++ [x].
Proof.
  intros Hk. unfold last_samples. split.
  - apply (drop_S l (l !!! (length l - k)%nat) (length l - k)).
    apply list_lookup_lookup_total_lt. lia.
  - rewrite length_app. cbn [length].
    replace (length l + 1 - k)%nat with (S (length l - k)) by lia.
    rewrite drop_app. replace (S (length l - k) - length l)%nat with 0%nat by lia.
    reflexivity.
Qed.

Lemma Zsum_last_samples_short (k : nat) (l : list Z) (x : Z) :
  (length l < k)%nat ->
  Zsum (last_samples k (l ++ [x])) = Zsum (last_samples k l) + x.
Proof.
  intros Hk. now rewrite last_samples_snoc_short, Zsum_snoc by exact Hk.
Qed.

Lemma Zsum_last_samples_full (k : nat) (l : list Z) (x : Z) :
  (0 < k <= length l)%nat ->
  Zsum (last_samples k (l ++ [x])) =
  Zsum (last_samples k l) - l !!! (length l - k)%nat + x.
Proof.
  intros Hk. destruct (last_samples_snoc_full k l x Hk) as [-> ->].
  rewrite Zsum_snoc, Zsum_cons. lia.
Qed.

(** The evicted sample is part of the sum it is subtracted from. *)
Lemma evicted_le_sum (k : nat) (l : list Z) :
  Forall is_u16 l -> (0 < k <= length l)%nat ->
  0 <= l !!! (length l - k)%nat <= Zsum (last_samples k l).
Proof.
  intros Hl Hk. destruct (last_samples_snoc_full k l 0 Hk) as [Heq _].
  pose proof (Forall_last_samples _ k _ Hl) as Hw. rewrite Heq in Hw |- *.
  inversion Hw as [|? ? Hx Hrest]; subst. apply Zsum_bounds in Hrest.
  rewrite Zsum_cons. unfold is_u16 in Hx. lia.
Qed.

End Windows.

(** ** The circular history buffer *)

Section History.

Lemma hist_holds_reset : hist_holds (replicate (Z.to_nat SENSOR_HIST_LEN) 0) [].
Proof. split; [reflexivity|]. cbn. intros k Hk Hk'. lia. Qed.

Lemma elem_store_eq (hist : list Z) (i v : Z) :
  (Z.to_nat i < length hist)%nat -> elem (store hist i v) i = v.
Proof. intros Hi. unfold elem, store. now apply list_lookup_total_insert_eq. Qed.

Lemma elem_store_ne (hist : list Z) (i j v : Z) :
  0 <= i -> 0 <= j -> i <> j -> elem (store hist i v) j = elem hist j.
Proof.
  intros Hi Hj Hij. unfold elem, store.
  apply list_lookup_total_insert_ne. lia.
Qed.

Lemma mod50_apart (n k : Z) : 0 < n - k < 50 -> k mod 50 <> n mod 50.
Proof.
  intros Hnk Heq.
  pose proof (Z.div_mod n 50 ltac:(lia)). pose proof (Z.div_mod k 50 ltac:(lia)).
  lia.
Qed.

Lemma u16_mod50 (n : Z) : u16 (n mod 50) = n mod 50.
Proof.
  unfold u16. apply Z.mod_small.
  pose proof (Z.mod_pos_bound n 50 ltac:(lia)). lia.
Qed.

(** Storing sample [length l] at slot [length l mod 50]. *)
Lemma hist_holds_set (hist l : list Z) (x : Z) :
  hist_holds hist l ->
  hist_holds
    (store hist (u16 (Z.of_nat (length l) mod SENSOR_HIST_LEN)) x) (l ++ [x]).
Proof.
  intros [Hlen Hget]. unfold SENSOR_HIST_LEN. rewrite u16_mod50.
  pose proof (Z.mod_pos_bound (Z.of_nat (length l)) 50 ltac:(lia)) as Hn.
  split; [unfold store; now rewrite length_insert|].
  rewrite length_app. cbn [length]. intros k Hk0 Hk.
  destruct (Z.eq_dec k (Z.of_nat (length l))) as [-> | Hne].
  - rewrite elem_store_eq by lia.
    rewrite Nat2Z.id, lookup_total_app_r, Nat.sub_diag by lia. reflexivity.
  - pose proof (Z.mod_pos_bound k 50 ltac:(lia)) as Hkm.
    rewrite elem_store_ne; [| lia | lia | ].
    + rewrite lookup_total_app_l by lia. apply Hget; lia.
    + intros Heq. apply (mod50_apart (Z.of_nat (length l)) k); [lia | now symmetry].
Qed.

End History.

(** ** The blocks of [Update_Sensor] on a sensor reached from a reset *)

Section Blocks.

Lemma u32_small (z : Z) : 0 <= z < 2 ^ 32 -> u32 z = z.
Proof. apply Z.mod_small. Qed.

Lemma u16_small (z : Z) : 0 <= z < 2 ^ 16 -> u16 z = z.
Proof. apply Z.mod_small. Qed.

Lemma to_int_small (c : Z) : 0 <= c < 2 ^ 31 -> to_int c = c.
Proof.
  intros Hc. unfold to_int. rewrite Z.mod_small by lia.
  destruct (Z.ltb_spec c (2 ^ 31)); lia.
Qed.

Lemma to_int_large (c : Z) : 2 ^ 31 <= c < 2 ^ 32 -> to_int c = c - 2 ^ 32.
Proof.
  intros Hc. unfold to_int. rewrite Z.mod_small by lia.
  destruct (Z.ltb_spec c (2 ^ 31)); lia.
Qed.

(** The slot the sample leaving the window is read from. *)
Lemma evicted_slot (hist l : list Z) :
  hist_holds hist l -> 25 <= Z.of_nat (length l) < 2 ^ 32 ->
  elem hist (u16 (u32 (Z.of_nat (length l) - 25) mod SENSOR_HIST_LEN)) =
  l !!! (length l - 25)%nat.
Proof.
  intros [_ Hget] Hn. unfold SENSOR_HIST_LEN.
  rewrite u32_small, u16_mod50 by lia.
  rewrite Hget by lia. f_equal. lia.
Qed.

(** The window-sum update as the PS block writes it. *)
Lemma window_sum_sub_add (hist l : list Z) (v : Z) :
  hist_holds hist l -> Forall is_u16 l -> is_u16 v ->
  Z.of_nat (length l) < 2 ^ 32 ->
  (if Z.of_nat (length l) <? 25 then u32 (Zsum (last_samples 25 l) + v)
   else
     let windowInd := u16 (u32 (Z.of_nat (length l) - 25) mod SENSOR_HIST_LEN) in
     u32 (u32 (Zsum (last_samples 25 l) - elem hist windowInd) + v)) =
  Zsum (last_samples 25 (l ++ [v])).
Proof.
  intros Hh Hl Hv Hn. pose proof (last_samples_bounds 25 l Hl) as Hsum.
  unfold is_u16 in Hv.
  destruct (Z.ltb_spec (Z.of_nat (length l)) 25) as [Hshort | Hfull].
  - rewrite Zsum_last_samples_short by lia. apply u32_small. lia.
  - cbv zeta. rewrite evicted_slot by (auto; lia).
    pose proof (evicted_le_sum 25 l Hl ltac:(lia)) as He.
    rewrite Zsum_last_samples_full by lia.
    rewrite (u32_small (_ - _)) by lia. apply u32_small. lia.
Qed.

(** The same update as the ALS block writes it. *)
Lemma window_sum_add_diff (hist l : list Z) (v : Z) :
  hist_holds hist l -> Forall is_u16 l -> is_u16 v ->
  Z.of_nat (length l) < 2 ^ 32 ->
  (if Z.of_nat (length l) <? 25 then u32 (Zsum (last_samples 25 l) + v)
   else
     let windowInd := u16 (u32 (Z.of_nat (length l) - 25) mod SENSOR_HIST_LEN) in
     u32 (Zsum (last_samples 25 l) + (v - elem hist windowInd))) =
  Zsum (last_samples 25 (l ++ [v])).
Proof.
  intros Hh Hl Hv Hn. pose proof (last_samples_bounds 25 l Hl) as Hsum.
  unfold is_u16 in Hv.
  destruct (Z.ltb_spec (Z.of_nat (length l)) 25) as [Hshort | Hfull].
  - rewrite Zsum_last_samples_short by lia. apply u32_small. lia.
  - cbv zeta. rewrite evicted_slot by (auto; lia).
    pose proof (evicted_le_sum 25 l Hl ltac:(lia)) as He.
    rewrite Zsum_last_samples_full by lia. rewrite u32_small; lia.
Qed.

Lemma PS_mean_value (n windowSum : Z) :
  0 <= n -> n + 1 < 2 ^ 32 ->
  PS_mean n windowSum =
  (Double.of_Z windowSum / Double.of_Z (Z.min (n + 1) 25))%float.
Proof.
  intros Hn Hn'. unfold PS_mean, PS_WINDOW. rewrite u32_small by lia.
  destruct (Z.leb_spec 25 (n + 1)).
  - now rewrite Z.min_r by lia.
  - now rewrite Z.min_l by lia.
Qed.

Lemma ALS_mean_value (n windowSum : Z) :
  0 <= n -> n + 1 < 2 ^ 32 ->
  ALS_mean n windowSum =
  (Double.of_Z windowSum / Double.of_Z (Z.min (n + 1) 25))%float.
Proof.
  intros Hn Hn'. unfold ALS_mean, ALS_WINDOW. rewrite u32_small by lia.
  destruct (Z.leb_spec (25 - 1) n).
  - now rewrite Z.min_r by lia.
  - now rewrite Z.min_l by lia.
Qed.

(** The integer mean of a window of [d] samples. *)
Lemma mean_cast (d windowSum : Z) :
  1 <= d <= 25 -> 0 <= windowSum <= 65535 * d ->
  Double.to_uint16 (Double.floor (Double.of_Z windowSum / Double.of_Z d)) =
  Some (windowSum / d).
Proof.
  intros Hd Hs. rewrite floor_mean by assumption. apply to_uint16_of_Z.
  split; [apply Z.div_pos; lia|]. apply Z.div_le_upper_bound; lia.
Qed.

(** The deviation loop visits the samples from the newest back. *)
Lemma STD_loop_samples (hist l : list Z) (meanDouble : float) (n : nat) :
  forall (i : Z) (errorSum : float),
    hist_holds hist l -> 1 <= Z.of_nat (length l) <= 2 ^ 31 ->
    0 <= i -> i + Z.of_nat n <= 50 ->
    STD_loop n i (Z.of_nat (length l) - 1) hist meanDouble errorSum =
    (fold_left (fun e x => e + Double.pow2 (Double.of_Z x - meanDouble))%float
       (take n (drop (Z.to_nat i) (reverse l))) errorSum,
     i + Z.of_nat (length (take n (drop (Z.to_nat i) (reverse l))))).
Proof.
  induction n as [|n IH]; intros i errorSum Hh Hl Hi Hin.
  - rewrite take_0. cbn. f_equal. lia.
  - cbn [STD_loop]. rewrite to_int_small by lia.
    destruct (Z.leb_spec 0 (Z.of_nat (length l) - 1 - i)) as [Hin' | Hout].
    + assert (Hlook : reverse l !! Z.to_nat i =
                      Some (l !!! Z.to_nat (Z.of_nat (length l) - 1 - i))).
      { rewrite reverse_lookup by lia.
        replace (length l - S (Z.to_nat i))%nat
          with (Z.to_nat (Z.of_nat (length l) - 1 - i)) by lia.
        apply list_lookup_lookup_total_lt. lia. }
      rewrite (drop_S _ _ _ Hlook). cbn [take fold_left length].
      cbv zeta. unfold SENSOR_HIST_LEN.
      rewrite Z.rem_mod_nonneg, u16_mod50 by lia.
      destruct Hh as [Hlen Hget]. rewrite Hget by lia.
      rewrite (u16_small (i + 1)) by lia.
      rewrite IH by (try split; auto; lia).
      replace (Z.to_nat (i + 1)) with (S (Z.to_nat i)) by lia.
      f_equal. lia.
    + rewrite drop_ge by (rewrite length_reverse; lia).
      rewrite take_nil. cbn. f_equal. lia.
Qed.

Lemma STD_reached (hist l : list Z) (meanDouble : float) :
  hist_holds hist l -> 1 <= Z.of_nat (length l) <= 2 ^ 31 ->
  STD 25 (Z.of_nat (length l) - 1) hist meanDouble =
  deviation (reverse (last_samples 25 l)) meanDouble.
Proof.
  intros Hh Hl. unfold STD. rewrite STD_loop_samples by (auto; lia).
  change (Z.to_nat 0) with 0%nat. change (Z.to_nat 25) with 25%nat.
  rewrite drop_0, Z.add_0_l, take_reverse. reflexivity.
Qed.

Lemma STD_wrapped (count : Z) (hist : list Z) (meanDouble : float) :
  2 ^ 31 <= count < 2 ^ 32 -> STD 25 count hist meanDouble = nan.
Proof.
  intros Hc. unfold STD. change (Z.to_nat 25) with 25%nat.
  cbn [STD_loop]. rewrite to_int_large by lia.
  destruct (Z.leb_spec 0 (count - 2 ^ 32 - 0)); [lia|]. reflexivity.
Qed.

End Blocks.

(** ** The distance lookup *)

Section Lookup.

Lemma read_Some (a : list Z) (i : Z) :
  0 <= i < Z.of_nat (length a) -> read a i = Some (elem a i).
Proof.
  intros Hi. unfold read, elem.
  destruct (Z.ltb_spec i 0); [lia|].
  apply list_lookup_lookup_total_lt. lia.
Qed.

Lemma read_in_bounds (a : list Z) (i v : Z) :
  read a i = Some v -> 0 <= i < Z.of_nat (length a).
Proof.
  unfold read. destruct (Z.ltb_spec i 0) as [Hneg | Hpos]; [discriminate|].
  intros Hlook%lookup_lt_Some. lia.
Qed.

Lemma read_take (n : nat) (a : list Z) (i : Z) :
  0 <= i < Z.of_nat n -> read (take n a) i = read a i.
Proof.
  intros Hi. unfold read. destruct (Z.ltb_spec i 0); [lia|].
  apply lookup_take_lt. lia.
Qed.

Variables (psVal : Z) (proxTable0 distTable : list Z) (tableLen : Z).
Hypothesis tableLen_range : 1 <= tableLen <= 255.

(** The scan reads only below [tableLen]: it cannot tell the tables from
    their first [tableLen] entries. *)
Lemma scan_take (n : nat) :
  forall i : Z,
    0 <= i -> i + Z.of_nat n = tableLen ->
    Distance_Lookup_scan n i psVal proxTable0 distTable tableLen =
    Distance_Lookup_scan n i psVal
      (take (Z.to_nat tableLen) proxTable0) (take (Z.to_nat tableLen) distTable)
      tableLen.
Proof.
  induction n as [|n IH]; intros i Hi Hn; cbn [Distance_Lookup_scan].
  - now rewrite read_take by lia.
  - rewrite (read_take _ proxTable0 i), (read_take _ distTable i) by lia.
    destruct (read proxTable0 i) as [p|]; [simpl|reflexivity].
    destruct (p <=? psVal).
    + destruct (Z.eqb_spec i 0) as [Hi0 | Hi0]; [reflexivity|].
      now rewrite (read_take _ proxTable0 (i - 1)),
        (read_take _ distTable (i - 1)) by lia.
    + assert (Hu : u8 (i + 1) = i + 1) by (apply Z.mod_small; lia).
      rewrite Hu. apply IH; lia.
Qed.

Hypothesis proxTable_len : tableLen <= Z.of_nat (length proxTable0).
Hypothesis distTable_len : tableLen <= Z.of_nat (length distTable).

Lemma scan_defined (n : nat) :
  forall i : Z,
    0 <= i -> i + Z.of_nat n = tableLen ->
    is_Some (Distance_Lookup_scan n i psVal proxTable0 distTable tableLen).
Proof.
  induction n as [|n IH]; intros i Hi Hn; cbn [Distance_Lookup_scan].
  - rewrite read_Some by lia. simpl. eexists; reflexivity.
  - rewrite (read_Some proxTable0 i) by lia. simpl.
    destruct (elem proxTable0 i <=? psVal).
    + destruct (Z.eqb_spec i 0) as [Hi0 | Hi0].
      * rewrite read_Some by lia. simpl. eexists; reflexivity.
      * rewrite (read_Some distTable (i - 1)), (read_Some proxTable0 (i - 1)),
          (read_Some distTable i) by lia.
        simpl. eexists; reflexivity.
    + assert (Hu : u8 (i + 1) = i + 1) by (apply Z.mod_small; lia).
      rewrite Hu. apply IH; lia.
Qed.

Lemma scan_first_match (n : nat) :
  forall i j : Z,
    0 <= i -> i + Z.of_nat n = tableLen -> i <= j < tableLen ->
    elem proxTable0 j <= psVal ->
    (forall k, i <= k < j -> psVal < elem proxTable0 k) ->
    Distance_Lookup_scan n i psVal proxTable0 distTable tableLen =
    Some (matched psVal proxTable0 distTable j).
Proof.
  induction n as [|n IH]; intros i j Hi Hn Hj Hmatch Hbefore;
    cbn [Distance_Lookup_scan]; [lia|].
  rewrite (read_Some proxTable0 i) by lia. simpl.
  destruct (Z.leb_spec (elem proxTable0 i) psVal) as [Hle | Hgt].
  - assert (j = i) as ->.
    { destruct (Z.eq_dec j i); [assumption|]. specialize (Hbefore i). lia. }
    unfold matched. destruct (Z.eqb_spec i 0) as [-> | Hi0].
    + rewrite read_Some by lia. reflexivity.
    + rewrite (read_Some distTable (i - 1)), (read_Some proxTable0 (i - 1)),
        (read_Some distTable i) by lia.
      reflexivity.
  - assert (Hu : u8 (i + 1) = i + 1) by (apply Z.mod_small; lia).
    rewrite Hu. apply IH; try lia.
    + destruct (Z.eq_dec j i) as [-> | Hne]; lia.
    + intros k Hk. apply Hbefore. lia.
Qed.

Lemma scan_no_match (n : nat) :
  forall i : Z,
    0 <= i -> i + Z.of_nat n = tableLen ->
    (forall k, i <= k < tableLen -> psVal < elem proxTable0 k) ->
    Distance_Lookup_scan n i psVal proxTable0 distTable tableLen =
    Some (Double.of_Z (elem distTable (tableLen - 1))).
Proof.
  induction n as [|n IH]; intros i Hi Hn Hall; cbn [Distance_Lookup_scan].
  - rewrite read_Some by lia. reflexivity.
  - rewrite (read_Some proxTable0 i) by lia. simpl.
    destruct (Z.leb_spec (elem proxTable0 i) psVal) as [Hle | Hgt].
    + specialize (Hall i). lia.
    + assert (Hu : u8 (i + 1) = i + 1) by (apply Z.mod_small; lia).
      rewrite Hu. apply IH; try lia. intros k Hk. apply Hall. lia.
Qed.

End Lookup.

Lemma Distance_Lookup_defined (psVal : Z) (proxTable0 distTable : list Z)
    (tableLen : Z) :
  1 <= tableLen <= 255 ->
  tableLen <= Z.of_nat (length proxTable0) ->
  tableLen <= Z.of_nat (length distTable) ->
  is_Some (Distance_Lookup psVal proxTable0 distTable tableLen).
Proof. intros H1 H2 H3. apply scan_defined; auto; lia. Qed.

(** ** One call *)

Section Update.

(** The result of a call whose three fallible steps succeed. *)
Lemma Update_Sensor_Some (s : Sensor) (psVal alsVal psMean1 alsMean1 : Z)
    (estimatedDistance1 : float) :
  Double.to_uint16
    (Double.floor (PS_mean (sampleCount s) (PS_window_sum s psVal))) =
    Some psMean1 ->
  Distance_Lookup psMean1 (proxTable s) distanceTable DIST_LOOKUP_LEN =
    Some estimatedDistance1 ->
  Double.to_uint16
    (Double.floor (ALS_mean (sampleCount s) (ALS_window_sum s alsVal))) =
    Some alsMean1 ->
  Update_Sensor s psVal alsVal =
  Some
    (let psHist1 :=
       store (psHist s) (u16 (sampleCount s mod SENSOR_HIST_LEN)) psVal in
     let alsHist1 :=
       store (alsHist s) (u16 (sampleCount s mod SENSOR_HIST_LEN)) alsVal in
     let alsSTD1 :=
       STD ALS_WINDOW (sampleCount s) alsHist1
         (ALS_mean (sampleCount s) (ALS_window_sum s alsVal)) in
     {| index := index s;
        sampleCount := u32 (sampleCount s + 1);
        proxTable := proxTable s;
        psHist := psHist1;
        alsHist := alsHist1;
        psMean := psMean1;
        psSTD := STD PS_WINDOW (sampleCount s) psHist1
                   (PS_mean (sampleCount s) (PS_window_sum s psVal));
        alsMean := alsMean1;
        alsSTD := alsSTD1;
        estimatedDistance := estimatedDistance1;
        psProxMin := psProxMin s;
        psProxMax := psProxMax s;
        inProximity := proximity_flag s psVal;
        isBlocked := blocked_flag s (proximity_flag s psVal) alsMean1 alsSTD1;
        psWindowSum := PS_window_sum s psVal;
        alsWindowSum := ALS_window_sum s alsVal |}).
Proof.
  intros H1 H2 H3. unfold Update_Sensor. cbv zeta.
  rewrite H1. simpl. rewrite H2. simpl. rewrite H3. reflexivity.
Qed.

(** Every result of a call has this shape. *)
Lemma Update_Sensor_inv (s s' : Sensor) (psVal alsVal : Z) :
  Update_Sensor s psVal alsVal = Some s' ->
  exists psMean1 alsMean1 estimatedDistance1,
    Double.to_uint16
      (Double.floor (PS_mean (sampleCount s) (PS_window_sum s psVal))) =
      Some psMean1 /\
    Distance_Lookup psMean1 (proxTable s) distanceTable DIST_LOOKUP_LEN =
      Some estimatedDistance1 /\
    Double.to_uint16
      (Double.floor (ALS_mean (sampleCount s) (ALS_window_sum s alsVal))) =
      Some alsMean1.
Proof.
  unfold Update_Sensor. cbv zeta. intros H.
  destruct (Double.to_uint16 (Double.floor (PS_mean _ _))) as [m1|];
    [simpl in H | discriminate].
  destruct (Distance_Lookup m1 _ _ _) as [e|] eqn:He; [simpl in H | discriminate].
  destruct (Double.to_uint16 (Double.floor (ALS_mean _ _))) as [m2|];
    [| discriminate].
  exists m1, m2, e. auto.
Qed.

Lemma Update_Sensor_fields (s s' : Sensor) (psVal alsVal : Z) :
  Update_Sensor s psVal alsVal = Some s' ->
  index s' = index s /\
  proxTable s' = proxTable s /\
  psProxMin s' = psProxMin s /\
  psProxMax s' = psProxMax s /\
  inProximity s' = proximity_flag s psVal /\
  isBlocked s' = blocked_flag s (inProximity s') (alsMean s') (alsSTD s') /\
  Distance_Lookup (psMean s') (proxTable s) distanceTable DIST_LOOKUP_LEN =
    Some (estimatedDistance s').
Proof.
  intros H. destruct (Update_Sensor_inv _ _ _ _ H) as (m1 & m2 & e & H1 & H2 & H3).
  rewrite (Update_Sensor_Some _ _ _ _ _ _ H1 H2 H3) in H.
  injection H as <-. cbn. auto 10.
Qed.

End Update.

Section Reached.

Variable table : list Z.
Hypothesis table_len : DIST_LOOKUP_LEN <= Z.of_nat (length table).

Lemma reached_reset (s0 : Sensor) :
  proxTable s0 = table -> reached table [] (Reset_Sensor s0).
Proof. intros Ht. constructor; try reflexivity; try apply hist_holds_reset. exact Ht. Qed.

Lemma Update_Sensor_reached (s : Sensor) (l : list (Z * Z)) (psVal alsVal : Z) :
  reached table l s ->
  Forall is_u16 l.*1 -> Forall is_u16 l.*2 -> is_u16 psVal -> is_u16 alsVal ->
  Z.of_nat (length l) + 1 < 2 ^ 32 ->
  exists s',
    Update_Sensor s psVal alsVal = Some s' /\
    reached table (l ++ [(psVal, alsVal)]) s' /\
    after_call (l ++ [(psVal, alsVal)]) s'.
Proof.
  intros [Hc Ht Hph Hah Hps Has] Hl1 Hl2 Hp Ha Hn.
  assert (Hlen1 : length l.*1 = length l) by apply length_fmap.
  assert (Hlen2 : length l.*2 = length l) by apply length_fmap.
  assert (Hsum1 : PS_window_sum s psVal = Zsum (last_samples 25 (l.*1 ++ [psVal]))).
  { unfold PS_window_sum, PS_WINDOW. rewrite Hc, Hps, <- Hlen1.
    apply window_sum_sub_add; auto; lia. }
  assert (Hsum2 : ALS_window_sum s alsVal = Zsum (last_samples 25 (l.*2 ++ [alsVal]))).
  { unfold ALS_window_sum, ALS_WINDOW. rewrite Hc, Has, <- Hlen2.
    apply window_sum_add_diff; auto; lia. }
  assert (Hl1' : Forall is_u16 (l.*1 ++ [psVal])) by (apply Forall_app; auto).
  assert (Hl2' : Forall is_u16 (l.*2 ++ [alsVal])) by (apply Forall_app; auto).
  pose proof (last_samples_bounds 25 _ Hl1') as Hb1.
  pose proof (last_samples_bounds 25 _ Hl2') as Hb2.
  rewrite length_app in Hb1, Hb2. cbn [length] in Hb1, Hb2.
  rewrite <- Hsum1 in Hb1. rewrite <- Hsum2 in Hb2.
  set (d := Z.min (Z.of_nat (length l) + 1) 25).
  assert (Hd : 1 <= d <= 25) by (unfold d; lia).
  assert (Hm1 : Double.to_uint16
                  (Double.floor (PS_mean (sampleCount s) (PS_window_sum s psVal))) =
                Some (PS_window_sum s psVal / d)).
  { rewrite Hc, PS_mean_value by lia. apply mean_cast; [exact Hd | unfold d; lia]. }
  assert (Hm2 : Double.to_uint16
                  (Double.floor (ALS_mean (sampleCount s) (ALS_window_sum s alsVal))) =
                Some (ALS_window_sum s alsVal / d)).
  { rewrite Hc, ALS_mean_value by lia. apply mean_cast; [exact Hd | unfold d; lia]. }
  destruct (Distance_Lookup_defined (PS_window_sum s psVal / d) (proxTable s)
              distanceTable DIST_LOOKUP_LEN) as [e He].
  { unfold DIST_LOOKUP_LEN. lia. }
  { now rewrite Ht. }
  { reflexivity. }
  assert (Hph' : hist_holds
                   (store (psHist s) (u16 (sampleCount s mod SENSOR_HIST_LEN)) psVal)
                   (l.*1 ++ [psVal])).
  { rewrite Hc, <- Hlen1. now apply hist_holds_set. }
  assert (Hah' : hist_holds
                   (store (alsHist s) (u16 (sampleCount s mod SENSOR_HIST_LEN)) alsVal)
                   (l.*2 ++ [alsVal])).
  { rewrite Hc, <- Hlen2. now apply hist_holds_set. }
  eexists. split; [apply (Update_Sensor_Some _ _ _ _ _ _ Hm1 He Hm2)|].
  cbv zeta. split.
  - constructor; cbn [sampleCount proxTable psHist alsHist psWindowSum alsWindowSum];
      rewrite ?fmap_app; cbn [fmap list_fmap fst snd]; auto.
    rewrite Hc, length_app. cbn [length]. rewrite u32_small; lia.
  - unfold after_call.
    cbn [psMean alsMean psSTD alsSTD psWindowSum alsWindowSum].
    rewrite length_app. cbn [length].
    replace (Z.of_nat (length l + 1)) with (Z.of_nat (length l) + 1) by lia.
    fold d. rewrite !fmap_app. cbn [fmap list_fmap fst snd].
    split; [reflexivity|]. split; [reflexivity|].
    unfold PS_WINDOW, ALS_WINDOW. rewrite Hc in Hph', Hah' |- *.
    destruct (Z.leb_spec (Z.of_nat (length l) + 1) (2 ^ 31)) as [Hsmall | Hbig].
    + rewrite PS_mean_value, ALS_mean_value by lia. fold d. split.
      * replace (Z.of_nat (length l)) with (Z.of_nat (length (l.*1 ++ [psVal])) - 1)
          at 1 by (rewrite length_app; cbn [length]; lia).
        apply STD_reached; [exact Hph'|]. rewrite length_app. cbn [length]. lia.
      * replace (Z.of_nat (length l)) with (Z.of_nat (length (l.*2 ++ [alsVal])) - 1)
          at 1 by (rewrite length_app; cbn [length]; lia).
        apply STD_reached; [exact Hah'|]. rewrite length_app. cbn [length]. lia.
    + split; apply STD_wrapped; lia.
Qed.

Lemma run_snoc (s : Sensor) (l : list (Z * Z)) (x : Z * Z) :
  run s (l ++ [x]) = s' ← run s l; Update_Sensor s' x.1 x.2.
Proof.
  revert s. induction l as [|[p a] l IH]; intros s; cbn [run app].
  - destruct x as [p a]. cbn. now destruct (Update_Sensor s p a).
  - destruct (Update_Sensor s p a) as [s1|]; [cbn; apply IH | reflexivity].
Qed.

(** Every sequence of fewer than 2^32 calls on a reset sensor is defined,
    and leaves the sensor in the state described by [reached] and
    [after_call]. *)
Lemma run_reached (s0 : Sensor) (l : list (Z * Z)) :
  proxTable s0 = table ->
  Forall is_u16 l.*1 -> Forall is_u16 l.*2 -> Z.of_nat (length l) < 2 ^ 32 ->
  exists s,
    run (Reset_Sensor s0) l = Some s /\
    reached table l s /\
    (l <> [] -> after_call l s).
Proof.
  intros Htable. induction l as [|x l IH] using rev_ind; intros Hl1 Hl2 Hn.
  - exists (Reset_Sensor s0). split; [reflexivity|].
    split; [now apply reached_reset | congruence].
  - rewrite !fmap_app in Hl1, Hl2. apply Forall_app in Hl1 as [Hl1 Hx1].
    apply Forall_app in Hl2 as [Hl2 Hx2]. rewrite length_app in Hn.
    cbn [length] in Hn.
    specialize (IH Hl1 Hl2 ltac:(lia)). destruct IH as (s & Hrun & Hreach & _).
    destruct x as [p a]. cbn in Hx1, Hx2.
    rewrite Forall_singleton in Hx1, Hx2.
    destruct (Update_Sensor_reached s l p a Hreach Hl1 Hl2 Hx1 Hx2 ltac:(lia))
      as (s' & Hup & Hreach' & Hafter).
    exists s'. rewrite run_snoc, Hrun. cbn. auto.
Qed.

End Reached.

(** ** Runs of calls *)

Section Runs.

Lemma last_samples_min (l : list Z) :
  last_samples (Z.to_nat (Z.min (Z.of_nat (length l)) 25)) l = last_samples 25 l.
Proof. unfold last_samples. f_equal. lia. Qed.

Lemma last_samples_replicate (k n : nat) (v : Z) :
  last_samples k (replicate n v) = replicate (Nat.min k n) v.
Proof.
  unfold last_samples. rewrite length_replicate, drop_replicate. f_equal. lia.
Qed.

Lemma Update_Sensor_None (s : Sensor) (psVal alsVal : Z) :
  Double.to_uint16
    (Double.floor (PS_mean (sampleCount s) (PS_window_sum s psVal))) = None ->
  Update_Sensor s psVal alsVal = None.
Proof. intros H. unfold Update_Sensor. cbv zeta. now rewrite H. Qed.

Lemma steady_length (n psVal alsVal : Z) :
  0 <= n -> Z.of_nat (length (steady n psVal alsVal)) = n.
Proof. intros Hn. unfold steady. rewrite length_replicate. lia. Qed.

Lemma steady_succ (n psVal alsVal : Z) :
  0 <= n ->
  steady (n + 1) psVal alsVal = steady n psVal alsVal ++ [(psVal, alsVal)].
Proof.
  intros Hn. unfold steady.
  replace (Z.to_nat (n + 1)) with (S (Z.to_nat n)) by lia.
  apply replicate_S_end.
Qed.

Lemma steady_fst (n psVal alsVal : Z) :
  (steady n psVal alsVal).*1 = replicate (Z.to_nat n) psVal.
Proof. apply fmap_replicate. Qed.

Lemma steady_snd (n psVal alsVal : Z) :
  (steady n psVal alsVal).*2 = replicate (Z.to_nat n) alsVal.
Proof. apply fmap_replicate. Qed.

(** The fold of [deviation] over a window of copies of [v], taken from
    the mean [v]. *)
Lemma deviation_fold_const (m : nat) (v : Z) :
  0 <= v <= 65535 ->
  fold_left
    (fun e x => e + Double.pow2 (Double.of_Z x - Double.of_Z v))%float
    (replicate m v) 0%float = 0%float.
Proof.
  intros Hv. induction m as [|m IH]; [reflexivity|].
  cbn [replicate fold_left].
  destruct (const_mean 1 v ltac:(lia) Hv) as (_ & -> & _). exact IH.
Qed.

Lemma deviation_const (m : nat) (v : Z) :
  (1 <= m <= 25)%nat -> 0 <= v <= 65535 ->
  deviation (replicate m v)
    (Double.of_Z (Z.of_nat m * v) / Double.of_Z (Z.of_nat m))%float = 0%float.
Proof.
  intros Hm Hv. unfold deviation.
  destruct (const_mean (Z.of_nat m) v ltac:(lia) Hv) as (-> & _ & Hsqrt).
  rewrite deviation_fold_const, length_replicate by exact Hv. exact Hsqrt.
Qed.

End Runs.

(** Closes [Forall is_u16 l] for a list [l] of numerals. *)
Ltac u16_list :=
  cbv [scenario fmap list_fmap fst snd];
  repeat (constructor; [unfold is_u16; lia |]); constructor.

(** * The window sums *)

(** C1.  For every sequence of fewer than 2^32 calls applied to a freshly
    reset sensor (the samples being [uint16_t] values and [proxTable]
    pointing to [DIST_LOOKUP_LEN] entries), after each call, that is after
    the first [k] calls for every [k], the call sequence is defined,
    [sampleCount] is [k], [psWindowSum] is the exact sum of the last
    [min(sampleCount, 25)] proximity samples and [alsWindowSum] the exact sum
    of the last [min(sampleCount, 25)] ambient samples. *)
Theorem window_sums_exact (s0 : Sensor) (samples : list (Z * Z)) (k : nat) :
  DIST_LOOKUP_LEN <= Z.of_nat (length (proxTable s0)) ->
  Forall is_u16 samples.*1 -> Forall is_u16 samples.*2 ->
  Z.of_nat (length samples) < 2 ^ 32 ->
  (k <= length samples)%nat ->
  exists s,
    run (Reset_Sensor s0) (take k samples) = Some s /\
    sampleCount s = Z.of_nat k /\
    psWindowSum s =
      Zsum (last_samples (Z.to_nat (Z.min (sampleCount s) 25)) (take k samples).*1) /\
    alsWindowSum s =
      Zsum (last_samples (Z.to_nat (Z.min (sampleCount s) 25)) (take k samples).*2).
Proof.
  intros Htable H1 H2 Hn Hk.
  destruct (run_reached (proxTable s0) Htable s0 (take k samples))
    as (s & Hrun & [Hc _ _ _ Hps Has] & _).
  - reflexivity.
  - rewrite fmap_take. now apply Forall_take.
  - rewrite fmap_take. now apply Forall_take.
  - rewrite length_take. lia.
  - exists s. split; [exact Hrun|]. rewrite Hc, length_take.
    split; [f_equal; lia|].
    replace (Z.of_nat (Nat.min k (length samples)))
      with (Z.of_nat (length (take k samples).*1)) at 1
      by (rewrite length_fmap, length_take; reflexivity).
    rewrite last_samples_min.
    replace (Z.of_nat (Nat.min k (length samples)))
      with (Z.of_nat (length (take k samples).*2))
      by (rewrite length_fmap, length_take; reflexivity).
    rewrite last_samples_min. auto.
Qed.

Lemma window_sums_exact_witness :
  exists s,
    run (Reset_Sensor demoSensor) (take 9 scenario) = Some s /\
    sampleCount s = Z.of_nat 9 /\
    psWindowSum s =
      Zsum (last_samples (Z.to_nat (Z.min (sampleCount s) 25)) (take 9 scenario).*1) /\
    alsWindowSum s =
      Zsum (last_samples (Z.to_nat (Z.min (sampleCount s) 25)) (take 9 scenario).*2).
Proof.
  apply (window_sums_exact demoSensor scenario 9).
  - vm_compute. discriminate.
  - u16_list.
  - u16_list.
  - vm_compute. reflexivity.
  - vm_compute. lia.
Defined.

(** * The means *)

(** One more call after 2^32 - 1 calls with the sample pair [(1, 1)]. *)
Lemma steady_wraps_undefined (n : Z) :
  n = 4294967295 -> run (Reset_Sensor demoSensor) (steady (n + 1) 1 1) = None.
Proof.
  intros Hn.
  assert (Hrange : 25 <= n < 2 ^ 32) by lia.
  assert (Hwrap : u32 (n + 1) = 0) by (subst n; reflexivity).
  clear Hn. rewrite steady_succ by lia. rewrite run_snoc.
  destruct (run_reached sampleTable ltac:(vm_compute; discriminate) demoSensor
              (steady n 1 1)) as (s & Hrun & Hreach & _).
  - reflexivity.
  - rewrite steady_fst. apply Forall_replicate. unfold is_u16. lia.
  - rewrite steady_snd. apply Forall_replicate. unfold is_u16. lia.
  - rewrite steady_length; lia.
  - rewrite Hrun. cbn [mbind option_bind fst snd].
    apply Update_Sensor_None. destruct Hreach as [Hc _ Hph _ Hps _].
    assert (Hsum : PS_window_sum s 1 = 25).
    { unfold PS_window_sum, PS_WINDOW. rewrite Hc, Hps.
      rewrite <- (length_fmap fst (steady n 1 1)).
      rewrite window_sum_sub_add.
      - rewrite steady_fst, <- replicate_S_end.
        rewrite last_samples_replicate, Zsum_replicate. lia.
      - exact Hph.
      - rewrite steady_fst. apply Forall_replicate. unfold is_u16. lia.
      - unfold is_u16. lia.
      - rewrite length_fmap, steady_length; lia. }
    rewrite Hsum. unfold PS_mean, PS_WINDOW. rewrite Hc, steady_length by lia.
    rewrite Hwrap. reflexivity.
Qed.

(** C6, as stated: after every call [psMean] is the floor of the window sum
    over [min(n, 25)].  It fails at call number 2^32: [sampleCount + 1]
    wraps to 0 there, the mean is the sum divided by zero, and its
    conversion to [uint16_t] is not defined.  With every sample 1 the
    quotient is [25 / 0.0], infinity. *)
Lemma mean_undefined_at_call_2_32 :
  run (Reset_Sensor demoSensor) (steady (2 ^ 32) 1 1) = None.
Proof.
  apply (steady_wraps_undefined 4294967295 eq_refl).
Qed.

(** C6, amended.  For every sequence of at least one and fewer than 2^32
    calls applied to a freshly reset sensor, after the last call [psMean] is
    the floor of [psWindowSum / min(n, 25)] and [alsMean] the floor of
    [alsWindowSum / min(n, 25)], [n] being the number of calls and the sums
    those the call has left. *)
Theorem means_are_floored_window_means (s0 : Sensor) (samples : list (Z * Z)) :
  DIST_LOOKUP_LEN <= Z.of_nat (length (proxTable s0)) ->
  Forall is_u16 samples.*1 -> Forall is_u16 samples.*2 ->
  1 <= Z.of_nat (length samples) < 2 ^ 32 ->
  exists s,
    run (Reset_Sensor s0) samples = Some s /\
    psMean s = psWindowSum s / Z.min (Z.of_nat (length samples)) 25 /\
    alsMean s = alsWindowSum s / Z.min (Z.of_nat (length samples)) 25.
Proof.
  intros Htable H1 H2 Hn.
  destruct (run_reached (proxTable s0) Htable s0 samples eq_refl H1 H2 ltac:(lia))
    as (s & Hrun & _ & Hafter).
  destruct Hafter as (Hm1 & Hm2 & _); [intros ->; cbn in Hn; lia|].
  exists s. auto.
Qed.

Lemma means_are_floored_window_means_witness :
  exists s,
    run (Reset_Sensor demoSensor) scenario = Some s /\
    psMean s = psWindowSum s / Z.min (Z.of_nat (length scenario)) 25 /\
    alsMean s = alsWindowSum s / Z.min (Z.of_nat (length scenario)) 25.
Proof.
  apply (means_are_floored_window_means demoSensor scenario).
  - vm_compute. discriminate.
  - u16_list.
  - u16_list.
  - vm_compute. split; [discriminate | reflexivity].
Defined.

(** * The standard deviations *)

Section Deviations.

(** A window whose entries all equal [v], on a sensor whose window sum is
    the sum of that window. *)
Lemma deviation_all_equal (w : list Z) (v : Z) :
  (1 <= length w <= 25)%nat -> is_u16 v -> Forall (fun x => x = v) w ->
  deviation (reverse w)
    (Double.of_Z (Zsum w) / Double.of_Z (Z.of_nat (length w)))%float = 0%float.
Proof.
  intros Hlen Hv Hall.
  assert (Hw : w = replicate (length w) v).
  { symmetry. apply replicate_as_Forall. split; [reflexivity|].
    revert Hall. apply Forall_impl. intros x ->. reflexivity. }
  rewrite Hw at 1 2. rewrite reverse_replicate, Zsum_replicate.
  apply deviation_const; [exact Hlen | unfold is_u16 in Hv; lia].
Qed.

Lemma nan_not_zero : nan <> 0%float.
Proof. intros H. apply (f_equal is_nan) in H. discriminate H. Qed.

(** Constant samples [v] for a number of calls past the range of [int]
    and inside that of [uint32_t]: counter, sums and means are as the
    samples give them, and both deviations are not a number. *)
Lemma steady_past_int_range (n v : Z) :
  2 ^ 31 < n < 2 ^ 32 -> is_u16 v ->
  exists s,
    run (Reset_Sensor demoSensor) (steady n v v) = Some s /\
    sampleCount s = n /\
    psWindowSum s = 25 * v /\ alsWindowSum s = 25 * v /\
    psMean s = v /\ alsMean s = v /\
    psSTD s = nan /\ alsSTD s = nan.
Proof.
  intros Hn Hv.
  destruct (run_reached sampleTable ltac:(vm_compute; discriminate) demoSensor
              (steady n v v)) as (s & Hrun & [Hc _ _ _ Hps Has] & Hafter).
  - reflexivity.
  - rewrite steady_fst. now apply Forall_replicate.
  - rewrite steady_snd. now apply Forall_replicate.
  - rewrite steady_length; lia.
  - destruct Hafter as (Hm1 & Hm2 & Hstd1 & Hstd2).
    { intros H. apply (f_equal (fun l => Z.of_nat (length l))) in H.
      rewrite steady_length in H by lia. cbn in H. lia. }
    rewrite steady_length in Hc, Hm1, Hm2, Hstd1, Hstd2 by lia.
    rewrite steady_fst, last_samples_replicate, Zsum_replicate in Hps.
    rewrite steady_snd, last_samples_replicate, Zsum_replicate in Has.
    replace (Z.of_nat (Nat.min 25 (Z.to_nat n))) with 25 in Hps, Has by lia.
    replace (Z.min n 25) with 25 in Hm1, Hm2 by lia.
    destruct (Z.leb_spec n (2 ^ 31)) as [|_]; [lia|].
    exists s. split; [exact Hrun|]. split; [exact Hc|].
    split; [exact Hps|]. split; [exact Has|].
    split; [rewrite Hm1, Hps, Z.mul_comm; apply Z.div_mul; lia|].
    split; [rewrite Hm2, Has, Z.mul_comm; apply Z.div_mul; lia|].
    split; assumption.
Qed.

End Deviations.

(** C7 at the input where the code departs from it.  After 2^31 + 1 calls
    with the constant sample pair (1, 1) every sample of both active windows
    is 1, so the claim gives both deviations as 0.  In the code the counter
    is 2^31 + 1, well inside [uint32_t], and sums and means are still right
    (25 and 1); but [(int) sampleCount] of the last call is negative, the
    guard [((int) sampleCount) - i >= 0] that should stop the loop at the
    start of the history fails at [i = 0], no entry is accumulated, and
    [psSTD] and [alsSTD] are [sqrt(0.0 / 0)], not a number. *)
Theorem std_is_nan_after_2_31_calls :
  exists s,
    run (Reset_Sensor demoSensor) (steady (2 ^ 31 + 1) 1 1) = Some s /\
    Forall (fun x => x = 1) (last_samples 25 (steady (2 ^ 31 + 1) 1 1).*1) /\
    Forall (fun x => x = 1) (last_samples 25 (steady (2 ^ 31 + 1) 1 1).*2) /\
    sampleCount s = 2 ^ 31 + 1 /\
    psWindowSum s = 25 /\ alsWindowSum s = 25 /\ psMean s = 1 /\ alsMean s = 1 /\
    psSTD s = nan /\ alsSTD s = nan /\
    psSTD s <> 0%float /\ alsSTD s <> 0%float.
Proof.
  destruct (steady_past_int_range (2 ^ 31 + 1) 1)
    as (s & Hrun & Hc & Hps & Has & Hm1 & Hm2 & Hstd1 & Hstd2).
  - lia.
  - unfold is_u16. lia.
  - exists s. split; [exact Hrun|].
    split; [rewrite steady_fst; apply Forall_drop, Forall_replicate; reflexivity|].
    split; [rewrite steady_snd; apply Forall_drop, Forall_replicate; reflexivity|].
    split; [exact Hc|]. split; [exact Hps|]. split; [exact Has|].
    split; [exact Hm1|]. split; [exact Hm2|].
    split; [exact Hstd1|]. split; [exact Hstd2|].
    rewrite Hstd1, Hstd2. split; apply nan_not_zero.
Qed.

(** * The flags *)

Section Flags.

Lemma truthy_true (z : Z) : truthy z = true <-> z <> 0.
Proof. unfold truthy. destruct (Z.eqb_spec z 0); cbn; split; congruence. Qed.

Lemma truthy_false (z : Z) : truthy z = false <-> z = 0.
Proof. unfold truthy. destruct (Z.eqb_spec z 0); cbn; split; congruence. Qed.

(** The blocked flag this call leaves, against the proximity flag it
    leaves. *)
Lemma blocked_flag_cases (s : Sensor) (inProximity1 alsMean1 : Z) (alsSTD1 : float) :
  let b := blocked_flag s inProximity1 alsMean1 alsSTD1 in
  (inProximity1 = 0 -> b = 0) /\
  (isBlocked s = 0 -> b <> 0 -> inProximity1 <> 0) /\
  (isBlocked s <> 0 -> inProximity1 <> 0 -> b = isBlocked s).
Proof.
  cbv zeta. unfold blocked_flag.
  destruct (truthy (isBlocked s)) eqn:Hb;
    [apply truthy_true in Hb | apply truthy_false in Hb];
    (destruct (truthy inProximity1) eqn:Hp;
     [apply truthy_true in Hp | apply truthy_false in Hp]);
    cbn [negb andb]; repeat split; intros; congruence.
Qed.

Lemma proximity_flag_band (s : Sensor) (psVal : Z) :
  psProxMin s < psVal < psProxMax s -> proximity_flag s psVal = inProximity s.
Proof.
  intros Hband. unfold proximity_flag.
  destruct (Z.leb_spec psVal (psProxMin s)); [lia|].
  destruct (Z.leb_spec (psProxMax s) psVal); [lia|].
  now rewrite !andb_false_r.
Qed.

Lemma run_blocked_in_proximity (l : list (Z * Z)) :
  forall s s' : Sensor,
    (isBlocked s <> 0 -> inProximity s <> 0) ->
    run s l = Some s' -> isBlocked s' <> 0 -> inProximity s' <> 0.
Proof.
  induction l as [|[p a] l IH]; intros s s' Hinv Hrun; cbn [run] in Hrun.
  - now injection Hrun as <-.
  - destruct (Update_Sensor s p a) as [s1|] eqn:Hup; [|discriminate].
    cbn [mbind option_bind] in Hrun. apply (IH s1 s'); [|exact Hrun].
    destruct (Update_Sensor_fields _ _ _ _ Hup) as (_ & _ & _ & _ & _ & Hb & _).
    destruct (blocked_flag_cases s (inProximity s1) (alsMean s1) (alsSTD s1))
      as (Hclear & _). rewrite <- Hb in Hclear.
    intros Hblocked Hzero. apply Hblocked, Hclear, Hzero.
Qed.

End Flags.

(** C2.  Starting from a reset sensor, after every call (in the state [s]
    any sequence of calls has reached) [isBlocked] implies [inProximity]; and
    whatever call comes next, it leaves [isBlocked] false when it leaves
    [inProximity] false, and it sets [isBlocked] only if it leaves
    [inProximity] true. *)
Theorem blocked_only_in_proximity (s0 s : Sensor) (samples : list (Z * Z)) :
  run (Reset_Sensor s0) samples = Some s ->
  (isBlocked s <> 0 -> inProximity s <> 0) /\
  forall psVal alsVal s',
    Update_Sensor s psVal alsVal = Some s' ->
    (inProximity s' = 0 -> isBlocked s' = 0) /\
    (isBlocked s = 0 -> isBlocked s' <> 0 -> inProximity s' <> 0).
Proof.
  intros Hrun. split.
  - apply (run_blocked_in_proximity samples (Reset_Sensor s0) s); [|exact Hrun].
    cbn. congruence.
  - intros psVal alsVal s' Hup.
    destruct (Update_Sensor_fields _ _ _ _ Hup) as (_ & _ & _ & _ & _ & Hb & _).
    destruct (blocked_flag_cases s (inProximity s') (alsMean s') (alsSTD s'))
      as (Hclear & Hset & _).
    rewrite <- Hb in Hclear, Hset. auto.
Qed.

(** C3.  For every sensor state and every sample pair whose proximity value
    lies strictly between [psProxMin] and [psProxMax], a call leaves
    [inProximity] as it was; in particular it does not enter proximity. *)
Theorem hysteresis_band_keeps_flag (s s' : Sensor) (psVal alsVal : Z) :
  psProxMin s < psVal < psProxMax s ->
  Update_Sensor s psVal alsVal = Some s' ->
  inProximity s' = inProximity s /\ (inProximity s = 0 -> inProximity s' = 0).
Proof.
  intros Hband Hup.
  destruct (Update_Sensor_fields _ _ _ _ Hup) as (_ & _ & _ & _ & Hp & _).
  rewrite Hp, proximity_flag_band by exact Hband. auto.
Qed.

Lemma blocked_only_in_proximity_witness :
  run (Reset_Sensor demoSensor) scenario = Some scenarioState /\
  (isBlocked scenarioState <> 0 -> inProximity scenarioState <> 0) /\
  forall psVal alsVal s',
    Update_Sensor scenarioState psVal alsVal = Some s' ->
    (inProximity s' = 0 -> isBlocked s' = 0) /\
    (isBlocked scenarioState = 0 -> isBlocked s' <> 0 -> inProximity s' <> 0).
Proof.
  assert (Hrun : run (Reset_Sensor demoSensor) scenario = Some scenarioState)
    by (vm_compute; reflexivity).
  split; [exact Hrun|].
  exact (blocked_only_in_proximity demoSensor scenarioState scenario Hrun).
Defined.

Lemma hysteresis_band_keeps_flag_witness :
  psProxMin nearState < 7 < psProxMax nearState /\
  Update_Sensor nearState 7 50 = Some nearStateNext /\
  inProximity nearState = 1 /\
  inProximity nearStateNext = inProximity nearState /\
  (inProximity nearState = 0 -> inProximity nearStateNext = 0).
Proof.
  assert (Hband : psProxMin nearState < 7 < psProxMax nearState)
    by (cbn; lia).
  assert (Hup : Update_Sensor nearState 7 50 = Some nearStateNext)
    by (vm_compute; reflexivity).
  split; [exact Hband|]. split; [exact Hup|]. split; [reflexivity|].
  exact (hysteresis_band_keeps_flag nearState nearStateNext 7 50 Hband Hup).
Defined.

(** * The end-to-end scenario *)

(** C4, as stated: the flag sequence [F,F,F,T,T,T,T,T,F].  The code leaves
    proximity at the first sample 4 (index 6), since 4 <= 5 is tested on the
    raw sample. *)
Lemma scenario_flags_not_as_stated :
  fmap (M := option) (fmap inProximity)
    (run_trace (Init_Sensor zeroSensor 0 5 10 sampleTable) scenario)
  <> Some [0; 0; 0; 1; 1; 1; 1; 1; 0].
Proof. vm_compute. discriminate. Qed.

Ltac scenario_step table Htable :=
  match goal with
  | Hr : reached table ?l ?s, Hlo : psProxMin ?s = _, Hhi : psProxMax ?s = _,
    Hf : inProximity ?s = _ |- context [Update_Sensor ?s ?p ?a] =>
      let s' := fresh "s" in
      let Hup := fresh "Hup" in
      let Hr' := fresh "Hr" in
      let Hlo' := fresh "Hlo" in
      let Hhi' := fresh "Hhi" in
      let Hf' := fresh "Hf" in
      destruct (Update_Sensor_reached table Htable s l p a Hr)
        as (s' & Hup & Hr' & _);
      [ cbv [fmap list_fmap app fst snd];
        repeat (constructor; [unfold is_u16; lia |]); constructor
      | cbv [fmap list_fmap app fst snd];
        repeat (constructor; [unfold is_u16; lia |]); constructor
      | unfold is_u16; lia
      | unfold is_u16; lia
      | cbn [length app]; lia
      | destruct (Update_Sensor_fields _ _ _ _ Hup)
          as (_ & _ & Hlo' & Hhi' & Hf' & _);
        rewrite Hlo in Hlo'; rewrite Hhi in Hhi';
        unfold proximity_flag in Hf'; rewrite Hlo, Hhi, Hf in Hf';
        cbn in Hf';
        rewrite Hup; cbn [mbind option_bind];
        clear Hr Hlo Hhi Hup ]
  end.

(** C4, amended.  After [Init_Sensor] with exit threshold 5 and enter
    threshold 10 (on any memory, with any index and any table of
    [DIST_LOOKUP_LEN] entries), the nine calls of the scenario leave
    [inProximity] as [F,F,F,T,T,T,F,F,F]: it is entered at sample index 3 and
    left at index 6. *)
Theorem scenario_flags (s0 : Sensor) (index0 : Z) (table : list Z) :
  DIST_LOOKUP_LEN <= Z.of_nat (length table) ->
  fmap (M := option) (fmap inProximity)
    (run_trace (Init_Sensor s0 index0 5 10 table) scenario)
  = Some [0; 0; 0; 1; 1; 1; 0; 0; 0].
Proof.
  intros Htable.
  assert (Hr : reached table [] (Init_Sensor s0 index0 5 10 table))
    by (unfold Init_Sensor; apply reached_reset; reflexivity).
  assert (Hlo : psProxMin (Init_Sensor s0 index0 5 10 table) = 5) by reflexivity.
  assert (Hhi : psProxMax (Init_Sensor s0 index0 5 10 table) = 10) by reflexivity.
  assert (Hf : inProximity (Init_Sensor s0 index0 5 10 table) = 0) by reflexivity.
  generalize dependent (Init_Sensor s0 index0 5 10 table). intros s Hr Hlo Hhi Hf.
  unfold scenario. cbn [run_trace].
  do 9 scenario_step table Htable.
  cbn [fmap option_fmap option_map list_fmap].
  repeat match goal with H : inProximity _ = _ |- _ => rewrite H; clear H end.
  reflexivity.
Qed.

Lemma scenario_flags_witness :
  fmap (M := option) (fmap inProximity)
    (run_trace (Init_Sensor zeroSensor 0 5 10 sampleTable) scenario)
  = Some [0; 0; 0; 1; 1; 1; 0; 0; 0].
Proof.
  apply (scenario_flags zeroSensor 0 sampleTable). vm_compute. discriminate.
Defined.

(** * The distance lookup *)

(** C5.  For every [psVal] and every pair of tables holding at least
    [tableLen >= 1] entries ([tableLen] being a [uint8_t]):
    [Distance_Lookup] returns [distTable[0]] when [psVal >= proxTable[0]];
    with [i >= 1] the smallest index such that [psVal >= proxTable[i]] it
    returns [distTable[i-1] + (psVal - proxTable[i-1]) * (distTable[i] -
    distTable[i-1]) / (proxTable[i] - proxTable[i-1])], computed in doubles;
    and when [psVal < proxTable[i]] for every [i < tableLen] it returns
    [distTable[tableLen - 1]]. *)
Theorem Distance_Lookup_interpolates (psVal : Z) (proxTable0 distTable : list Z)
    (tableLen : Z) :
  1 <= tableLen <= 255 ->
  tableLen <= Z.of_nat (length proxTable0) ->
  tableLen <= Z.of_nat (length distTable) ->
  let prox i := Double.of_Z (elem proxTable0 i) in
  let dist i := Double.of_Z (elem distTable i) in
  (elem proxTable0 0 <= psVal ->
   Distance_Lookup psVal proxTable0 distTable tableLen = Some (dist 0)) /\
  (forall i,
     1 <= i < tableLen ->
     elem proxTable0 i <= psVal ->
     (forall j, 0 <= j < i -> psVal < elem proxTable0 j) ->
     Distance_Lookup psVal proxTable0 distTable tableLen =
     Some (dist (i - 1)%Z +
           (Double.of_Z psVal - prox (i - 1)%Z) * (dist i - dist (i - 1)%Z) /
           (prox i - prox (i - 1)%Z))%float) /\
  ((forall i, 0 <= i < tableLen -> psVal < elem proxTable0 i) ->
   Distance_Lookup psVal proxTable0 distTable tableLen =
   Some (dist (tableLen - 1))).
Proof.
  intros Hlen Hp Hd. cbv zeta. unfold Distance_Lookup. repeat split.
  - intros H0.
    rewrite (scan_first_match psVal proxTable0 distTable tableLen Hlen Hp Hd
               (Z.to_nat tableLen) 0 0) by (auto; lia).
    reflexivity.
  - intros i Hi Hmatch Hbefore.
    rewrite (scan_first_match psVal proxTable0 distTable tableLen Hlen Hp Hd
               (Z.to_nat tableLen) 0 i) by (auto; lia).
    unfold matched. destruct (Z.eqb_spec i 0); [lia | reflexivity].
  - intros Hnone.
    apply (scan_no_match psVal proxTable0 distTable tableLen Hlen Hp Hd); auto; lia.
Qed.

Lemma Distance_Lookup_interpolates_witness :
  Distance_Lookup 35 [30; 20; 10; 0] [30; 20; 10; 0] 4 = Some 30%float /\
  Distance_Lookup 25 [30; 20; 10; 0] [30; 20; 10; 0] 4 = Some 25%float /\
  Distance_Lookup 5 [30; 20; 10; 6] [30; 20; 10; 0] 4 = Some 0%float.
Proof.
  assert (Hlen : 1 <= 4 <= 255) by lia.
  assert (Hl1 : 4 <= Z.of_nat (length [30; 20; 10; 0])) by (cbn; lia).
  assert (Hl2 : 4 <= Z.of_nat (length [30; 20; 10; 6])) by (cbn; lia).
  split; [|split].
  - apply (proj1 (Distance_Lookup_interpolates 35 [30; 20; 10; 0] [30; 20; 10; 0]
                    4 Hlen Hl1 Hl1)).
    vm_compute. discriminate.
  - apply (proj1 (proj2 (Distance_Lookup_interpolates 25 [30; 20; 10; 0]
                           [30; 20; 10; 0] 4 Hlen Hl1 Hl1)) 1).
    + lia.
    + vm_compute. discriminate.
    + intros j Hj. replace j with 0 by lia. vm_compute. reflexivity.
  - apply (proj2 (proj2 (Distance_Lookup_interpolates 5 [30; 20; 10; 6]
                           [30; 20; 10; 0] 4 Hlen Hl2 Hl1))).
    intros i Hi.
    assert (Hcases : i = 0 \/ i = 1 \/ i = 2 \/ i = 3) by lia.
    destruct Hcases as [-> | [-> | [-> | ->]]]; vm_compute; reflexivity.
Defined.

(** C10.  Under [tableLen >= 1], with tables of at least [tableLen] entries,
    every array access of [Distance_Lookup] is in bounds: the call is defined,
    and it reads no index outside [0, tableLen), since it returns the same on
    the tables cut to their first [tableLen] entries, where a read outside
    that range is out of bounds.  With [tableLen = 0] the fallback reads
    [distTable[-1]], which is out of bounds, and the call is undefined. *)
Theorem Distance_Lookup_in_bounds (psVal : Z) (proxTable0 distTable : list Z) :
  (forall tableLen,
     1 <= tableLen <= 255 ->
     tableLen <= Z.of_nat (length proxTable0) ->
     tableLen <= Z.of_nat (length distTable) ->
     is_Some (Distance_Lookup psVal proxTable0 distTable tableLen) /\
     Distance_Lookup psVal proxTable0 distTable tableLen =
     Distance_Lookup psVal (take (Z.to_nat tableLen) proxTable0)
       (take (Z.to_nat tableLen) distTable) tableLen /\
     forall a i v,
       read (take (Z.to_nat tableLen) a) i = Some v -> 0 <= i < tableLen) /\
  read distTable (0 - 1) = None /\
  Distance_Lookup psVal proxTable0 distTable 0 = None.
Proof.
  split; [|split; reflexivity].
  intros tableLen Hlen Hp Hd. split; [|split].
  - now apply Distance_Lookup_defined.
  - unfold Distance_Lookup. apply scan_take; lia.
  - intros a i v Hread. apply read_in_bounds in Hread.
    rewrite length_take in Hread. lia.
Qed.

(** * Reset and initialisation *)

(** C8.  For every sensor state, [Reset_Sensor] sets [sampleCount], both
    window sums, both means, both standard deviations, all 50 slots of both
    history buffers and both flags to zero, and leaves [index], [psProxMin],
    [psProxMax] and [proxTable] as they were; resetting twice gives the state
    that resetting once gives. *)
Theorem Reset_Sensor_zeroes (s : Sensor) :
  let r := Reset_Sensor s in
  (sampleCount r = 0 /\ psWindowSum r = 0 /\ alsWindowSum r = 0 /\
   psMean r = 0 /\ psSTD r = 0%float /\ alsMean r = 0 /\ alsSTD r = 0%float /\
   psHist r = replicate 50 0 /\ alsHist r = replicate 50 0 /\
   inProximity r = 0 /\ isBlocked r = 0) /\
  (index r = index s /\ psProxMin r = psProxMin s /\
   psProxMax r = psProxMax s /\ proxTable r = proxTable s) /\
  Reset_Sensor (Reset_Sensor s) = Reset_Sensor s.
Proof. cbv zeta. repeat split; reflexivity. Qed.

(** C9.  Neither [Reset_Sensor] nor [Init_Sensor] writes
    [estimatedDistance]: after either, the field holds what the memory held
    before; the first [Update_Sensor] call assigns it (the result of a call
    on an initialised sensor does not depend on what the memory held, and
    every call leaves the field equal to the lookup of the new [psMean]). *)
Theorem estimatedDistance_not_reset :
  (forall s, estimatedDistance (Reset_Sensor s) = estimatedDistance s) /\
  (forall s index0 psProxMin0 psProxMax0 table,
     estimatedDistance (Init_Sensor s index0 psProxMin0 psProxMax0 table) =
     estimatedDistance s) /\
  (forall s1 s2 index0 psProxMin0 psProxMax0 table psVal alsVal,
     Update_Sensor (Init_Sensor s1 index0 psProxMin0 psProxMax0 table) psVal alsVal =
     Update_Sensor (Init_Sensor s2 index0 psProxMin0 psProxMax0 table) psVal alsVal) /\
  (forall s psVal alsVal s',
     Update_Sensor s psVal alsVal = Some s' ->
     Distance_Lookup (psMean s') (proxTable s) distanceTable DIST_LOOKUP_LEN =
     Some (estimatedDistance s')).
Proof.
  split; [reflexivity|]. split; [reflexivity|]. split; [reflexivity|].
  intros s psVal alsVal s' Hup.
  now destruct (Update_Sensor_fields _ _ _ _ Hup) as (_ & _ & _ & _ & _ & _ & He).
Qed.

Lemma Distance_Lookup_in_bounds_witness :
  is_Some (Distance_Lookup 25 [30; 20; 10; 0] [30; 20; 10; 0] 4) /\
  Distance_Lookup 25 [30; 20; 10; 0] [30; 20; 10; 0] 4 =
  Distance_Lookup 25 (take 4 [30; 20; 10; 0]) (take 4 [30; 20; 10; 0]) 4 /\
  read [30; 20; 10; 0] (0 - 1) = None /\
  Distance_Lookup 25 [30; 20; 10; 0] [30; 20; 10; 0] 0 = None.
Proof.
  destruct (Distance_Lookup_in_bounds 25 [30; 20; 10; 0] [30; 20; 10; 0])
    as (Hin & Hread & Hzero).
  destruct (Hin 4) as (Hsome & Htake & _); [lia | cbn; lia | cbn; lia |].
  auto.
Defined.

Lemma estimatedDistance_not_reset_witness :
  estimatedDistance (Reset_Sensor nearState) = estimatedDistance nearState /\
  Update_Sensor nearState 7 50 = Some nearStateNext /\
  Distance_Lookup (psMean nearStateNext) (proxTable nearState) distanceTable
    DIST_LOOKUP_LEN = Some (estimatedDistance nearStateNext).
Proof.
  destruct estimatedDistance_not_reset as (Hreset & _ & _ & Hupdate).
  assert (Hup : Update_Sensor nearState 7 50 = Some nearStateNext)
    by (vm_compute; reflexivity).
  split; [apply Hreset|]. split; [exact Hup|]. exact (Hupdate _ _ _ _ Hup).
Defined.

(** * Further properties of the code *)

Section Further.

Lemma Update_Sensor_count (s s' : Sensor) (psVal alsVal : Z) :
  Update_Sensor s psVal alsVal = Some s' ->
  sampleCount s' = u32 (sampleCount s + 1).
Proof.
  intros H. destruct (Update_Sensor_inv _ _ _ _ H) as (m1 & m2 & e & H1 & H2 & H3).
  rewrite (Update_Sensor_Some _ _ _ _ _ _ H1 H2 H3) in H.
  injection H as <-. reflexivity.
Qed.

Lemma run_last (s s' : Sensor) (l : list (Z * Z)) (x : Z * Z) :
  run s (l ++ [x]) = Some s' ->
  exists s1, run s l = Some s1 /\ Update_Sensor s1 x.1 x.2 = Some s'.
Proof.
  rewrite run_snoc. destruct (run s l) as [s1|]; [|discriminate].
  cbn [mbind option_bind]. eauto.
Qed.

Lemma Zsum_between (lo hi : Z) (w : list Z) :
  Forall (fun x => lo <= x <= hi) w ->
  lo * Z.of_nat (length w) <= Zsum w <= hi * Z.of_nat (length w).
Proof.
  induction 1 as [|x w Hx _ IH]; [cbn; lia|].
  rewrite Zsum_cons. cbn [length]. lia.
Qed.

Lemma proximity_flag_boolean (s : Sensor) (psVal : Z) :
  inProximity s = 0 \/ inProximity s = 1 ->
  proximity_flag s psVal = 0 \/ proximity_flag s psVal = 1.
Proof.
  intros H. unfold proximity_flag.
  destruct (truthy (inProximity s) && (psVal <=? psProxMin s)); [auto|].
  destruct (negb (truthy (inProximity s)) && (psProxMax s <=? psVal)); auto.
Qed.

Lemma blocked_flag_boolean (s : Sensor) (inProximity1 alsMean1 : Z) (alsSTD1 : float) :
  isBlocked s = 0 \/ isBlocked s = 1 ->
  blocked_flag s inProximity1 alsMean1 alsSTD1 = 0 \/
  blocked_flag s inProximity1 alsMean1 alsSTD1 = 1.
Proof.
  intros H. unfold blocked_flag.
  destruct (negb (truthy (isBlocked s)) && truthy inProximity1 &&
            (alsMean1 =? 0) && (alsSTD1 =? 0)%float); [auto|].
  destruct (truthy (isBlocked s) && negb (truthy inProximity1)); auto.
Qed.

End Further.

(** X1.  A sequence of calls, from any state whose [sampleCount] is a
    [uint32_t] value, leaves [index], [psProxMin], [psProxMax] and [proxTable]
    as they were and advances [sampleCount] by the number of calls, modulo
    2^32. *)
Theorem run_keeps_configuration (s s' : Sensor) (samples : list (Z * Z)) :
  0 <= sampleCount s < 2 ^ 32 ->
  run s samples = Some s' ->
  index s' = index s /\ psProxMin s' = psProxMin s /\
  psProxMax s' = psProxMax s /\ proxTable s' = proxTable s /\
  sampleCount s' = u32 (sampleCount s + Z.of_nat (length samples)).
Proof.
  revert s. induction samples as [|[p a] l IH]; intros s Hc Hrun; cbn [run] in Hrun.
  - injection Hrun as <-. cbn [length]. rewrite Z.add_0_r, u32_small by lia. auto.
  - destruct (Update_Sensor s p a) as [s1|] eqn:Hup; [|discriminate].
    cbn [mbind option_bind] in Hrun.
    destruct (Update_Sensor_fields _ _ _ _ Hup) as (Hi & Ht & Hlo & Hhi & _).
    pose proof (Update_Sensor_count _ _ _ _ Hup) as Hc1.
    destruct (IH s1) as (Hi' & Hlo' & Hhi' & Ht' & Hc'); [|exact Hrun|].
    + rewrite Hc1. unfold u32. apply Z.mod_pos_bound. lia.
    + rewrite Hi', Hlo', Hhi', Ht', Hc', Hc1. repeat split; auto.
      unfold u32. rewrite Zplus_mod_idemp_l. f_equal. cbn [length]. lia.
Qed.

Lemma run_keeps_configuration_witness :
  run (Reset_Sensor demoSensor) scenario = Some scenarioState /\
  index scenarioState = index (Reset_Sensor demoSensor) /\
  psProxMin scenarioState = psProxMin (Reset_Sensor demoSensor) /\
  psProxMax scenarioState = psProxMax (Reset_Sensor demoSensor) /\
  proxTable scenarioState = proxTable (Reset_Sensor demoSensor) /\
  sampleCount scenarioState =
  u32 (sampleCount (Reset_Sensor demoSensor) + Z.of_nat (length scenario)).
Proof.
  assert (Hrun : run (Reset_Sensor demoSensor) scenario = Some scenarioState)
    by (vm_compute; reflexivity).
  split; [exact Hrun|].
  apply (run_keeps_configuration _ _ scenario); [cbn; lia | exact Hrun].
Defined.

(** X2.  The circular history: after fewer than 2^32 calls on a reset sensor
    both buffers still have 50 slots, and for each of the last 50 calls [k]
    (counted from 0) slot [k mod 50] holds the samples of call [k]. *)
Theorem history_holds_last_50 (s0 : Sensor) (samples : list (Z * Z)) :
  DIST_LOOKUP_LEN <= Z.of_nat (length (proxTable s0)) ->
  Forall is_u16 samples.*1 -> Forall is_u16 samples.*2 ->
  Z.of_nat (length samples) < 2 ^ 32 ->
  exists s,
    run (Reset_Sensor s0) samples = Some s /\
    length (psHist s) = 50%nat /\ length (alsHist s) = 50%nat /\
    forall k,
      0 <= k -> Z.of_nat (length samples) - 50 <= k < Z.of_nat (length samples) ->
      elem (psHist s) (k mod SENSOR_HIST_LEN) = elem samples.*1 k /\
      elem (alsHist s) (k mod SENSOR_HIST_LEN) = elem samples.*2 k.
Proof.
  intros Htable H1 H2 Hn.
  destruct (run_reached (proxTable s0) Htable s0 samples eq_refl H1 H2 Hn)
    as (s & Hrun & [_ _ [Hl1 Hg1] [Hl2 Hg2] _ _] & _).
  exists s. repeat split; auto.
  - apply Hg1; [lia|]. rewrite length_fmap. lia.
  - apply Hg2; [lia|]. rewrite length_fmap. lia.
Qed.

Lemma history_holds_last_50_witness :
  exists s,
    run (Reset_Sensor demoSensor) scenario = Some s /\
    length (psHist s) = 50%nat /\ length (alsHist s) = 50%nat /\
    forall k,
      0 <= k -> Z.of_nat (length scenario) - 50 <= k < Z.of_nat (length scenario) ->
      elem (psHist s) (k mod SENSOR_HIST_LEN) = elem scenario.*1 k /\
      elem (alsHist s) (k mod SENSOR_HIST_LEN) = elem scenario.*2 k.
Proof.
  apply (history_holds_last_50 demoSensor scenario).
  - vm_compute. discriminate.
  - u16_list.
  - u16_list.
  - vm_compute. reflexivity.
Defined.

(** X3.  After at least one and fewer than 2^32 calls on a reset sensor, each
    mean lies between any bounds [lo] and [hi] that hold for all samples of
    its active window: the mean is at least the smallest and at most the
    largest sample of the window; and neither window sum exceeds 25 * 65535,
    far below the range of [uint32_t]. *)
Theorem means_within_window_range (s0 : Sensor) (samples : list (Z * Z)) (lo hi : Z) :
  DIST_LOOKUP_LEN <= Z.of_nat (length (proxTable s0)) ->
  Forall is_u16 samples.*1 -> Forall is_u16 samples.*2 ->
  1 <= Z.of_nat (length samples) < 2 ^ 32 ->
  exists s,
    run (Reset_Sensor s0) samples = Some s /\
    (Forall (fun x => lo <= x <= hi) (last_samples 25 samples.*1) ->
     lo <= psMean s <= hi) /\
    (Forall (fun x => lo <= x <= hi) (last_samples 25 samples.*2) ->
     lo <= alsMean s <= hi) /\
    0 <= psWindowSum s <= 25 * 65535 /\ 0 <= alsWindowSum s <= 25 * 65535.
Proof.
  intros Htable H1 H2 Hn.
  destruct (run_reached (proxTable s0) Htable s0 samples eq_refl H1 H2 ltac:(lia))
    as (s & Hrun & [_ _ _ _ Hps Has] & Hafter).
  destruct Hafter as (Hm1 & Hm2 & _); [intros ->; cbn in Hn; lia|].
  pose proof (last_samples_bounds 25 _ H1) as Hb1.
  pose proof (last_samples_bounds 25 _ H2) as Hb2.
  pose proof (length_last_samples 25 samples.*1) as Hk1.
  pose proof (length_last_samples 25 samples.*2) as Hk2.
  rewrite length_fmap in Hk1, Hk2, Hb1, Hb2.
  exists s. split; [exact Hrun|]. rewrite Hm1, Hm2, Hps, Has.
  set (d := Z.min (Z.of_nat (length samples)) 25).
  assert (Hd : 1 <= d) by (unfold d; lia).
  split; [|split; [|lia]].
  - intros Hall. apply Zsum_between in Hall. rewrite Hk1 in Hall.
    replace (Z.of_nat (25 `min` length samples)) with d in Hall by (unfold d; lia).
    split; [apply Z.div_le_lower_bound | apply Z.div_le_upper_bound]; lia.
  - intros Hall. apply Zsum_between in Hall. rewrite Hk2 in Hall.
    replace (Z.of_nat (25 `min` length samples)) with d in Hall by (unfold d; lia).
    split; [apply Z.div_le_lower_bound | apply Z.div_le_upper_bound]; lia.
Qed.

Lemma means_within_window_range_witness :
  exists s,
    run (Reset_Sensor demoSensor) scenario = Some s /\
    0 <= psMean s <= 12 /\ 50 <= alsMean s <= 50.
Proof.
  assert (Htable : DIST_LOOKUP_LEN <= Z.of_nat (length (proxTable demoSensor)))
    by (vm_compute; discriminate).
  assert (H1 : Forall is_u16 scenario.*1) by u16_list.
  assert (H2 : Forall is_u16 scenario.*2) by u16_list.
  assert (Hn : 1 <= Z.of_nat (length scenario) < 2 ^ 32)
    by (vm_compute; split; [discriminate | reflexivity]).
  destruct (means_within_window_range demoSensor scenario 0 12 Htable H1 H2 Hn)
    as (s & Hrun & Hps & _).
  destruct (means_within_window_range demoSensor scenario 50 50 Htable H1 H2 Hn)
    as (s' & Hrun' & _ & Hals & _).
  rewrite Hrun in Hrun'. injection Hrun' as <-.
  exists s. split; [exact Hrun|]. split.
  - apply Hps. cbv [scenario fmap list_fmap fst last_samples length Nat.sub drop].
    repeat (constructor; [lia|]). constructor.
  - apply Hals. cbv [scenario fmap list_fmap snd last_samples length Nat.sub drop].
    repeat (constructor; [lia|]). constructor.
Defined.

(** X4.  Outside the band the raw sample decides the flag: a call with
    [psVal >= psProxMax] and [psVal > psProxMin] leaves the sensor in
    proximity, and a call with [psVal <= psProxMin] and [psVal < psProxMax]
    leaves it out of proximity, whatever the flag was. *)
Theorem sample_outside_band_decides (s s' : Sensor) (psVal alsVal : Z) :
  Update_Sensor s psVal alsVal = Some s' ->
  (psProxMax s <= psVal -> psProxMin s < psVal -> inProximity s' <> 0) /\
  (psVal <= psProxMin s -> psVal < psProxMax s -> inProximity s' = 0).
Proof.
  intros Hup.
  destruct (Update_Sensor_fields _ _ _ _ Hup) as (_ & _ & _ & _ & Hp & _).
  rewrite Hp. unfold proximity_flag.
  destruct (truthy (inProximity s)) eqn:Hflag;
    [apply truthy_true in Hflag | apply truthy_false in Hflag];
    destruct (Z.leb_spec psVal (psProxMin s));
    destruct (Z.leb_spec (psProxMax s) psVal);
    cbn [negb andb]; split; intros; try lia; congruence.
Qed.

Lemma sample_outside_band_decides_witness :
  (exists s', Update_Sensor nearState 12 50 = Some s' /\
              inProximity nearState = 1 /\ inProximity s' <> 0) /\
  (exists s', Update_Sensor demoSensor 12 50 = Some s' /\
              inProximity demoSensor = 0 /\ inProximity s' <> 0) /\
  (exists s', Update_Sensor nearState 3 50 = Some s' /\
              inProximity nearState = 1 /\ inProximity s' = 0) /\
  (exists s', Update_Sensor demoSensor 3 50 = Some s' /\
              inProximity demoSensor = 0 /\ inProximity s' = 0).
Proof.
  assert (H1 : {s' | Update_Sensor nearState 12 50 = Some s'})
    by (vm_compute; eexists; reflexivity).
  assert (H2 : {s' | Update_Sensor demoSensor 12 50 = Some s'})
    by (vm_compute; eexists; reflexivity).
  assert (H3 : {s' | Update_Sensor nearState 3 50 = Some s'})
    by (vm_compute; eexists; reflexivity).
  assert (H4 : {s' | Update_Sensor demoSensor 3 50 = Some s'})
    by (vm_compute; eexists; reflexivity).
  destruct H1 as [s1 Hup1], H2 as [s2 Hup2], H3 as [s3 Hup3], H4 as [s4 Hup4].
  repeat split.
  - exists s1. split; [exact Hup1|]. split; [reflexivity|].
    apply (proj1 (sample_outside_band_decides nearState s1 12 50 Hup1));
      vm_compute; first [reflexivity | discriminate].
  - exists s2. split; [exact Hup2|]. split; [reflexivity|].
    apply (proj1 (sample_outside_band_decides demoSensor s2 12 50 Hup2));
      vm_compute; first [reflexivity | discriminate].
  - exists s3. split; [exact Hup3|]. split; [reflexivity|].
    apply (proj2 (sample_outside_band_decides nearState s3 3 50 Hup3));
      vm_compute; first [reflexivity | discriminate].
  - exists s4. split; [exact Hup4|]. split; [reflexivity|].
    apply (proj2 (sample_outside_band_decides demoSensor s4 3 50 Hup4));
      vm_compute; first [reflexivity | discriminate].
Defined.

(** X5.  With the thresholds the wrong way round, a sample in between
    ([psProxMax <= psVal <= psProxMin]) flips the flag on every call: a
    sensor in proximity leaves it and a sensor out of proximity enters it. *)
Theorem crossed_thresholds_toggle (s s' : Sensor) (psVal alsVal : Z) :
  psProxMax s <= psVal <= psProxMin s ->
  Update_Sensor s psVal alsVal = Some s' ->
  (inProximity s <> 0 -> inProximity s' = 0) /\
  (inProximity s = 0 -> inProximity s' = 1).
Proof.
  intros Hband Hup.
  destruct (Update_Sensor_fields _ _ _ _ Hup) as (_ & _ & _ & _ & Hp & _).
  rewrite Hp. unfold proximity_flag.
  destruct (Z.leb_spec psVal (psProxMin s)); [|lia].
  destruct (Z.leb_spec (psProxMax s) psVal); [|lia].
  destruct (truthy (inProximity s)) eqn:Hflag;
    [apply truthy_true in Hflag | apply truthy_false in Hflag];
    cbn [negb andb]; split; intros; congruence.
Qed.

Lemma crossed_thresholds_toggle_witness :
  psProxMax crossedSensor <= 7 <= psProxMin crossedSensor /\
  Update_Sensor crossedSensor 7 50 = Some crossedSensorNext /\
  inProximity crossedSensor = 0 /\ inProximity crossedSensorNext = 1.
Proof.
  assert (Hband : psProxMax crossedSensor <= 7 <= psProxMin crossedSensor)
    by (cbn; lia).
  assert (Hup : Update_Sensor crossedSensor 7 50 = Some crossedSensorNext)
    by (vm_compute; reflexivity).
  split; [exact Hband|]. split; [exact Hup|]. split; [reflexivity|].
  apply (crossed_thresholds_toggle crossedSensor crossedSensorNext 7 50 Hband Hup).
  reflexivity.
Defined.

(** X6.  The blocked flag latches: a call on a blocked sensor that leaves it
    in proximity leaves [isBlocked] as it was, whatever the ambient readings
    are by then. *)
Theorem blocked_latches_in_proximity (s s' : Sensor) (psVal alsVal : Z) :
  Update_Sensor s psVal alsVal = Some s' ->
  isBlocked s <> 0 -> inProximity s' <> 0 -> isBlocked s' = isBlocked s.
Proof.
  intros Hup Hb Hp.
  destruct (Update_Sensor_fields _ _ _ _ Hup) as (_ & _ & _ & _ & _ & Hflag & _).
  destruct (blocked_flag_cases s (inProximity s') (alsMean s') (alsSTD s'))
    as (_ & _ & Hlatch).
  rewrite Hflag. auto.
Qed.

Lemma blocked_latches_in_proximity_witness :
  Update_Sensor darkState 12 50 = Some darkStateNext /\
  isBlocked darkState = 1 /\ inProximity darkStateNext = 1 /\
  isBlocked darkStateNext = isBlocked darkState.
Proof.
  assert (Hup : Update_Sensor darkState 12 50 = Some darkStateNext)
    by (vm_compute; reflexivity).
  split; [exact Hup|]. split; [reflexivity|]. split; [reflexivity|].
  apply (blocked_latches_in_proximity darkState darkStateNext 12 50 Hup);
    vm_compute; discriminate.
Defined.

(** X7.  After at least one and at most 2^31 calls on a reset sensor: when
    the last call leaves the sensor in proximity and every ambient sample of
    the active window is 0, the sensor is blocked. *)
Theorem dark_window_in_proximity_blocks (s0 : Sensor) (samples : list (Z * Z)) :
  DIST_LOOKUP_LEN <= Z.of_nat (length (proxTable s0)) ->
  Forall is_u16 samples.*1 -> Forall is_u16 samples.*2 ->
  1 <= Z.of_nat (length samples) <= 2 ^ 31 ->
  Forall (fun x => x = 0) (last_samples 25 samples.*2) ->
  exists s,
    run (Reset_Sensor s0) samples = Some s /\
    alsMean s = 0 /\ alsSTD s = 0%float /\
    (inProximity s <> 0 -> isBlocked s <> 0).
Proof.
  intros Htable H1 H2 Hn Hdark.
  destruct (run_reached (proxTable s0) Htable s0 samples eq_refl H1 H2 ltac:(lia))
    as (s & Hrun & [_ _ _ _ _ Has] & Hafter).
  destruct Hafter as (_ & Hm & _ & Hstd); [intros ->; cbn in Hn; lia|].
  destruct (Z.leb_spec (Z.of_nat (length samples)) (2 ^ 31)) as [_|]; [|lia].
  pose proof (length_last_samples 25 samples.*2) as Hk. rewrite length_fmap in Hk.
  assert (Hsum : alsWindowSum s = 0).
  { rewrite Has.
    assert (Hzero : Forall (fun x => 0 <= x <= 0) (last_samples 25 samples.*2))
      by (revert Hdark; apply Forall_impl; intros x ->; lia).
    apply Zsum_between in Hzero. lia. }
  assert (Hmean : alsMean s = 0) by (rewrite Hm, Hsum; apply Z.div_0_l; lia).
  assert (Hdev : alsSTD s = 0%float).
  { rewrite Hstd, Has.
    replace (Z.min (Z.of_nat (length samples)) 25)
      with (Z.of_nat (length (last_samples 25 samples.*2))) by lia.
    apply deviation_all_equal with 0; [lia | unfold is_u16; lia | exact Hdark]. }
  exists s. split; [exact Hrun|]. split; [exact Hmean|]. split; [exact Hdev|].
  destruct samples as [|x l _] using rev_ind; [cbn in Hn; lia|].
  destruct (run_last _ _ _ _ Hrun) as (s1 & _ & Hup).
  destruct (Update_Sensor_fields _ _ _ _ Hup) as (_ & _ & _ & _ & _ & Hflag & _).
  rewrite Hflag, Hmean, Hdev. unfold blocked_flag. intros Hp.
  apply truthy_true in Hp. rewrite Hp.
  destruct (truthy (isBlocked s1)) eqn:Hb; cbn; [|lia].
  now apply truthy_true in Hb.
Qed.

Lemma dark_window_in_proximity_blocks_witness :
  exists s,
    run (Reset_Sensor demoSensor) darkSamples = Some s /\
    alsMean s = 0 /\ alsSTD s = 0%float /\
    (inProximity s <> 0 -> isBlocked s <> 0).
Proof.
  apply (dark_window_in_proximity_blocks demoSensor darkSamples).
  - vm_compute. discriminate.
  - cbv [darkSamples fmap list_fmap fst].
    repeat (constructor; [unfold is_u16; lia |]). constructor.
  - cbv [darkSamples fmap list_fmap snd].
    repeat (constructor; [unfold is_u16; lia |]). constructor.
  - vm_compute. split; discriminate.
  - cbv [darkSamples fmap list_fmap snd last_samples length Nat.sub drop].
    repeat (constructor; [reflexivity |]). constructor.
Defined.

(** X8.  A reset erases the history: two sensors that agree on [index], the
    thresholds and the table behave alike after [Reset_Sensor], whatever they
    held before.  Every sequence of at least one call gives the same
    result on both. *)
Theorem reset_erases_history (s1 s2 : Sensor) (samples : list (Z * Z)) :
  index s1 = index s2 -> psProxMin s1 = psProxMin s2 ->
  psProxMax s1 = psProxMax s2 -> proxTable s1 = proxTable s2 ->
  samples <> [] ->
  run (Reset_Sensor s1) samples = run (Reset_Sensor s2) samples.
Proof.
  intros Hi Hlo Hhi Ht Hne. destruct samples as [|[p a] l]; [congruence|].
  cbn [run].
  assert (Hfirst : Update_Sensor (Reset_Sensor s1) p a =
                   Update_Sensor (Reset_Sensor s2) p a).
  { unfold Update_Sensor, PS_window_sum, ALS_window_sum, proximity_flag,
      blocked_flag, Reset_Sensor.
    cbn [index sampleCount proxTable psHist alsHist psProxMin psProxMax
         inProximity isBlocked psWindowSum alsWindowSum].
    rewrite Hi, Hlo, Hhi, Ht. reflexivity. }
  now rewrite Hfirst.
Qed.

Lemma reset_erases_history_witness :
  run (Reset_Sensor scenarioState) scenario = run (Reset_Sensor demoSensor) scenario.
Proof.
  apply (reset_erases_history scenarioState demoSensor scenario);
    try reflexivity. discriminate.
Defined.

(** X9.  The first call on a reset sensor (with [uint16_t] samples and a
    table of [DIST_LOOKUP_LEN] entries) leaves each mean equal to its sample,
    each window sum equal to its sample, both standard deviations 0 and
    [sampleCount] 1. *)
Theorem first_call_statistics (s0 : Sensor) (psVal alsVal : Z) :
  DIST_LOOKUP_LEN <= Z.of_nat (length (proxTable s0)) ->
  is_u16 psVal -> is_u16 alsVal ->
  exists s,
    Update_Sensor (Reset_Sensor s0) psVal alsVal = Some s /\
    sampleCount s = 1 /\
    psWindowSum s = psVal /\ alsWindowSum s = alsVal /\
    psMean s = psVal /\ alsMean s = alsVal /\
    psSTD s = 0%float /\ alsSTD s = 0%float.
Proof.
  intros Htable Hp Ha.
  destruct (run_reached (proxTable s0) Htable s0 [(psVal, alsVal)] eq_refl)
    as (s & Hrun & [Hc _ _ _ Hps Has] & Hafter).
  - apply Forall_singleton. exact Hp.
  - apply Forall_singleton. exact Ha.
  - cbn. lia.
  - destruct Hafter as (Hm1 & Hm2 & Hs1 & Hs2); [discriminate|].
    cbn [run] in Hrun.
    destruct (Update_Sensor (Reset_Sensor s0) psVal alsVal) as [s1|]; [|discriminate].
    cbn [mbind option_bind] in Hrun. injection Hrun as ->.
    assert (Hsum1 : psWindowSum s = psVal) by (rewrite Hps; cbn; lia).
    assert (Hsum2 : alsWindowSum s = alsVal) by (rewrite Has; cbn; lia).
    change (psMean s = psWindowSum s / 1) in Hm1.
    change (alsMean s = alsWindowSum s / 1) in Hm2.
    rewrite Z.div_1_r in Hm1, Hm2.
    exists s. repeat split; try congruence.
    + rewrite Hc. reflexivity.
    + rewrite Hs1, Hps.
      change (deviation (reverse [psVal])
                (Double.of_Z (Zsum [psVal]) /
                 Double.of_Z (Z.of_nat (length [psVal])))%float = 0%float).
      apply (deviation_all_equal [psVal] psVal); [cbn; lia | exact Hp |].
      apply Forall_singleton. reflexivity.
    + rewrite Hs2, Has.
      change (deviation (reverse [alsVal])
                (Double.of_Z (Zsum [alsVal]) /
                 Double.of_Z (Z.of_nat (length [alsVal])))%float = 0%float).
      apply (deviation_all_equal [alsVal] alsVal); [cbn; lia | exact Ha |].
      apply Forall_singleton. reflexivity.
Qed.

Lemma first_call_statistics_witness :
  exists s,
    Update_Sensor (Reset_Sensor demoSensor) 12 50 = Some s /\
    sampleCount s = 1 /\
    psWindowSum s = 12 /\ alsWindowSum s = 50 /\
    psMean s = 12 /\ alsMean s = 50 /\
    psSTD s = 0%float /\ alsSTD s = 0%float.
Proof.
  apply (first_call_statistics demoSensor 12 50).
  - vm_compute. discriminate.
  - unfold is_u16. lia.
  - unfold is_u16. lia.
Defined.

(** X10.  With no table entry behind [proxTable], no call is defined: the
    lookup reads [proxTable[0]] on every call. *)
Theorem empty_table_undefined (s : Sensor) (psVal alsVal : Z) :
  proxTable s = [] -> Update_Sensor s psVal alsVal = None.
Proof.
  intros Ht. destruct (Update_Sensor s psVal alsVal) as [s'|] eqn:Hup; [|reflexivity].
  destruct (Update_Sensor_fields _ _ _ _ Hup) as (_ & _ & _ & _ & _ & _ & He).
  rewrite Ht in He. discriminate He.
Qed.

Lemma empty_table_undefined_witness :
  proxTable tablelessSensor = [] /\ Update_Sensor tablelessSensor 12 50 = None.
Proof.
  split; [reflexivity|]. apply (empty_table_undefined tablelessSensor 12 50).
  reflexivity.
Defined.

(** X11.  The distance a call stores, at the two ends of a table of
    [DIST_LOOKUP_LEN] entries: 0 cm when the new [psMean] reaches
    [proxTable[0]], and 30 cm, the last entry of [distanceTable], when it is
    below every entry. *)
Theorem estimatedDistance_at_table_ends (s s' : Sensor) (psVal alsVal : Z) :
  DIST_LOOKUP_LEN <= Z.of_nat (length (proxTable s)) ->
  Update_Sensor s psVal alsVal = Some s' ->
  (elem (proxTable s) 0 <= psMean s' -> estimatedDistance s' = 0%float) /\
  ((forall i, 0 <= i < DIST_LOOKUP_LEN -> psMean s' < elem (proxTable s) i) ->
   estimatedDistance s' = 30%float).
Proof.
  intros Htable Hup.
  destruct (Update_Sensor_fields _ _ _ _ Hup) as (_ & _ & _ & _ & _ & _ & He).
  assert (Hlen : 1 <= DIST_LOOKUP_LEN <= 255) by (unfold DIST_LOOKUP_LEN; lia).
  assert (Hd : DIST_LOOKUP_LEN <= Z.of_nat (length distanceTable)) by reflexivity.
  unfold Distance_Lookup in He. split.
  - intros Hfirst.
    rewrite (scan_first_match (psMean s') (proxTable s) distanceTable
               DIST_LOOKUP_LEN Hlen Htable Hd (Z.to_nat DIST_LOOKUP_LEN) 0 0) in He
      by (auto; lia).
    injection He as <-. reflexivity.
  - intros Hnone.
    rewrite (scan_no_match (psMean s') (proxTable s) distanceTable
               DIST_LOOKUP_LEN Hlen Htable Hd (Z.to_nat DIST_LOOKUP_LEN) 0) in He
      by (auto; lia).
    injection He as <-. reflexivity.
Qed.

Lemma estimatedDistance_at_table_ends_witness :
  Update_Sensor nearState 7000 50 = Some farState /\
  elem (proxTable nearState) 0 <= psMean farState /\
  estimatedDistance farState = 0%float.
Proof.
  assert (Hup : Update_Sensor nearState 7000 50 = Some farState)
    by (vm_compute; reflexivity).
  assert (Hfirst : elem (proxTable nearState) 0 <= psMean farState)
    by (vm_compute; discriminate).
  split; [exact Hup|]. split; [exact Hfirst|].
  apply (estimatedDistance_at_table_ends nearState farState 7000 50);
    [vm_compute; discriminate | exact Hup | exact Hfirst].
Defined.

(** X12.  Starting from a reset sensor, both flags only ever hold 0 or 1. *)
Theorem flags_are_boolean (s0 s : Sensor) (samples : list (Z * Z)) :
  run (Reset_Sensor s0) samples = Some s ->
  (inProximity s = 0 \/ inProximity s = 1) /\
  (isBlocked s = 0 \/ isBlocked s = 1).
Proof.
  assert (Hgen : forall l s1 s2,
             (inProximity s1 = 0 \/ inProximity s1 = 1) ->
             (isBlocked s1 = 0 \/ isBlocked s1 = 1) ->
             run s1 l = Some s2 ->
             (inProximity s2 = 0 \/ inProximity s2 = 1) /\
             (isBlocked s2 = 0 \/ isBlocked s2 = 1)).
  { induction l as [|[p a] l IH]; intros s1 s2 Hp Hb Hrun; cbn [run] in Hrun.
    - injection Hrun as <-. auto.
    - destruct (Update_Sensor s1 p a) as [s'|] eqn:Hup; [|discriminate].
      cbn [mbind option_bind] in Hrun.
      destruct (Update_Sensor_fields _ _ _ _ Hup) as (_ & _ & _ & _ & Hp' & Hb' & _).
      apply (IH s' s2); [| |exact Hrun].
      + rewrite Hp'. now apply proximity_flag_boolean.
      + rewrite Hb'. now apply blocked_flag_boolean. }
  intros Hrun. apply (Hgen samples (Reset_Sensor s0) s); cbn; auto.
Qed.

Lemma flags_are_boolean_witness :
  run (Reset_Sensor demoSensor) darkSamples = Some darkState /\
  (inProximity darkState = 0 \/ inProximity darkState = 1) /\
  (isBlocked darkState = 0 \/ isBlocked darkState = 1).
Proof.
  assert (Hrun : run (Reset_Sensor demoSensor) darkSamples = Some darkState)
    by (vm_compute; reflexivity).
  split; [exact Hrun|].
  exact (flags_are_boolean demoSensor darkState darkSamples Hrun).
Defined.

(** X13.  [Init_Sensor] stores its four parameters and resets the rest: the
    result is the reset state with the given [index], thresholds and table,
    it is a fixed point of [Reset_Sensor], and apart from [estimatedDistance]
    it does not depend on what the memory held. *)
Theorem Init_Sensor_stores_parameters (s1 s2 : Sensor)
    (index0 psProxMin0 psProxMax0 : Z) (table : list Z) :
  let s := Init_Sensor s1 index0 psProxMin0 psProxMax0 table in
  (index s = index0 /\ psProxMin s = psProxMin0 /\ psProxMax s = psProxMax0 /\
   proxTable s = table) /\
  (sampleCount s = 0 /\ psWindowSum s = 0 /\ alsWindowSum s = 0 /\
   psMean s = 0 /\ alsMean s = 0 /\ psSTD s = 0%float /\ alsSTD s = 0%float /\
   psHist s = replicate 50 0 /\ alsHist s = replicate 50 0 /\
   inProximity s = 0 /\ isBlocked s = 0) /\
  Reset_Sensor s = s /\
  (estimatedDistance s1 = estimatedDistance s2 ->
   s = Init_Sensor s2 index0 psProxMin0 psProxMax0 table).
Proof.
  cbv zeta. repeat split; try reflexivity.
  intros He. unfold Init_Sensor, Reset_Sensor. cbn. now rewrite He.
Qed.

(** X14.  A table of a single entry: [Distance_Lookup] returns
    [distTable[0]] for every [psVal], whether it matches the entry or falls
    through to the last index. *)
Theorem Distance_Lookup_single_entry (psVal : Z) (proxTable0 distTable : list Z) :
  1 <= Z.of_nat (length proxTable0) -> 1 <= Z.of_nat (length distTable) ->
  Distance_Lookup psVal proxTable0 distTable 1 =
  Some (Double.of_Z (elem distTable 0)).
Proof.
  intros Hp Hd. unfold Distance_Lookup.
  destruct (Z.le_gt_cases (elem proxTable0 0) psVal) as [Hmatch | Hnone].
  - apply (scan_first_match psVal proxTable0 distTable 1 ltac:(lia) Hp Hd
             (Z.to_nat 1) 0 0); auto; lia.
  - apply (scan_no_match psVal proxTable0 distTable 1 ltac:(lia) Hp Hd
             (Z.to_nat 1) 0); [lia | lia |].
    intros k Hk. replace k with 0 by lia. lia.
Qed.

Lemma Distance_Lookup_single_entry_witness :
  Distance_Lookup 5 [10] [30] 1 = Some 30%float /\
  Distance_Lookup 15 [10] [30] 1 = Some 30%float.
Proof.
  split.
  - apply (Distance_Lookup_single_entry 5 [10] [30]); cbn; lia.
  - apply (Distance_Lookup_single_entry 15 [10] [30]); cbn; lia.
Defined.

Section Steady.

Lemma Zsum_all_equal (w : list Z) (v : Z) :
  Forall (fun x => x = v) w -> Zsum w = Z.of_nat (length w) * v.
Proof.
  induction 1 as [|x w Hx _ IH]; [reflexivity|].
  rewrite Zsum_cons, IH, Hx. cbn [length]. lia.
Qed.

(** A window of the last 25 of [n >= 1] samples, all equal to [v]: the
    floored mean is [v] and the deviation from the double mean is 0. *)
Lemma steady_window (l : list Z) (v : Z) :
  Forall is_u16 l -> (1 <= length l)%nat ->
  Forall (fun x => x = v) (last_samples 25 l) ->
  let d := Z.min (Z.of_nat (length l)) 25 in
  Zsum (last_samples 25 l) / d = v /\
  deviation (reverse (last_samples 25 l))
    (Double.of_Z (Zsum (last_samples 25 l)) / Double.of_Z d)%float = 0%float.
Proof.
  intros Hl Hn Hall d.
  assert (Hk : Z.of_nat (length (last_samples 25 l)) = d).
  { rewrite length_last_samples. unfold d. lia. }
  split.
  - rewrite (Zsum_all_equal _ v Hall), Hk, Z.mul_comm. apply Z.div_mul. unfold d. lia.
  - rewrite <- Hk. apply deviation_all_equal with v; [unfold d in Hk; lia| |exact Hall].
    pose proof (Forall_last_samples _ 25 _ Hl) as Hu.
    destruct (last_samples 25 l) as [|x w]; [cbn in Hk; unfold d in Hk; lia|].
    inversion Hu; inversion Hall; subst. assumption.
Qed.

End Steady.

(** X15.  A steady signal reads back exactly.  After at least one and at most
    2^31 calls on a reset sensor: when every proximity sample of the active
    window equals [psVal0], [psMean] is [psVal0] and [psSTD] is 0; when every
    ambient sample of the active window equals [alsVal0], [alsMean] is
    [alsVal0] and [alsSTD] is 0.  The double mean is then the sample itself
    and every accumulated square is the square of 0. *)
Theorem constant_window_zero_deviation (s0 : Sensor) (samples : list (Z * Z))
    (psVal0 alsVal0 : Z) :
  DIST_LOOKUP_LEN <= Z.of_nat (length (proxTable s0)) ->
  Forall is_u16 samples.*1 -> Forall is_u16 samples.*2 ->
  1 <= Z.of_nat (length samples) <= 2 ^ 31 ->
  exists s,
    run (Reset_Sensor s0) samples = Some s /\
    (Forall (fun x => x = psVal0) (last_samples 25 samples.*1) ->
     psMean s = psVal0 /\ psSTD s = 0%float) /\
    (Forall (fun x => x = alsVal0) (last_samples 25 samples.*2) ->
     alsMean s = alsVal0 /\ alsSTD s = 0%float).
Proof.
  intros Htable H1 H2 Hn.
  destruct (run_reached (proxTable s0) Htable s0 samples eq_refl H1 H2 ltac:(lia))
    as (s & Hrun & [Hc _ _ _ Hps Has] & Hafter).
  destruct Hafter as (Hm1 & Hm2 & Hstd1 & Hstd2); [intros ->; cbn in Hn; lia|].
  exists s. split; [exact Hrun|].
  destruct (Z.leb_spec (Z.of_nat (length samples)) (2 ^ 31)) as [_|]; [|lia].
  split; intros Hall.
  - destruct (steady_window samples.*1 psVal0 H1) as [Hmean Hdev];
      [rewrite length_fmap; lia | exact Hall |].
    rewrite length_fmap in Hmean, Hdev.
    rewrite Hm1, Hstd1, Hps. split; [exact Hmean | exact Hdev].
  - destruct (steady_window samples.*2 alsVal0 H2) as [Hmean Hdev];
      [rewrite length_fmap; lia | exact Hall |].
    rewrite length_fmap in Hmean, Hdev.
    rewrite Hm2, Hstd2, Has. split; [exact Hmean | exact Hdev].
Qed.

Lemma constant_window_zero_deviation_witness :
  exists s,
    run (Reset_Sensor demoSensor) settledSamples = Some s /\
    (psMean s = 7 /\ psSTD s = 0%float) /\
    (alsMean s = 50 /\ alsSTD s = 0%float).
Proof.
  destruct (constant_window_zero_deviation demoSensor settledSamples 7 50)
    as (s & Hrun & Hp & Ha).
  - vm_compute. discriminate.
  - unfold settledSamples. rewrite fmap_app. apply Forall_app. split; [u16_list|].
    rewrite steady_fst. apply Forall_replicate. unfold is_u16. lia.
  - unfold settledSamples. rewrite fmap_app. apply Forall_app. split; [u16_list|].
    rewrite steady_snd. apply Forall_replicate. unfold is_u16. lia.
  - vm_compute. split; discriminate.
  - exists s. split; [exact Hrun|]. split.
    + apply Hp. vm_compute. repeat constructor.
    + apply Ha. vm_compute. repeat constructor.
Defined.

(** X16.  The standard deviations as a formula of the samples, with
    [pow(x, 2)] returning the correctly rounded square [x * x]
    ([Double.pow2]).  For every sequence of at least one and at most 2^31
    calls applied to a freshly reset sensor, with [k = min(sampleCount, 25)]
    after the last call: [psSTD] is, bit for bit, the square root of the sum
    of the squared deviations of the last [k] proximity samples, accumulated
    newest first, from the double [psWindowSum / k] (the mean before it is
    truncated), divided by [k]; likewise [alsSTD] for the ambient samples. *)
Theorem deviations_of_active_window (s0 : Sensor) (samples : list (Z * Z)) :
  DIST_LOOKUP_LEN <= Z.of_nat (length (proxTable s0)) ->
  Forall is_u16 samples.*1 -> Forall is_u16 samples.*2 ->
  1 <= Z.of_nat (length samples) <= 2 ^ 31 ->
  exists s,
    run (Reset_Sensor s0) samples = Some s /\
    let k := Z.min (sampleCount s) 25 in
    let psWindow := last_samples (Z.to_nat k) samples.*1 in
    let alsWindow := last_samples (Z.to_nat k) samples.*2 in
    psSTD s =
      deviation (reverse psWindow)
        (Double.of_Z (psWindowSum s) / Double.of_Z k)%float /\
    alsSTD s =
      deviation (reverse alsWindow)
        (Double.of_Z (alsWindowSum s) / Double.of_Z k)%float.
Proof.
  intros Htable H1 H2 Hn.
  destruct (run_reached (proxTable s0) Htable s0 samples eq_refl H1 H2 ltac:(lia))
    as (s & Hrun & [Hc _ _ _ _ _] & Hafter).
  destruct Hafter as (_ & _ & Hstd1 & Hstd2); [intros ->; cbn in Hn; lia|].
  exists s. split; [exact Hrun|]. cbv zeta. rewrite Hc.
  destruct (Z.leb_spec (Z.of_nat (length samples)) (2 ^ 31)) as [_|]; [|lia].
  assert (Hw1 : last_samples
                  (Z.to_nat (Z.min (Z.of_nat (length samples)) 25)) samples.*1 =
                last_samples 25 samples.*1).
  { rewrite <- (length_fmap fst samples). apply last_samples_min. }
  assert (Hw2 : last_samples
                  (Z.to_nat (Z.min (Z.of_nat (length samples)) 25)) samples.*2 =
                last_samples 25 samples.*2).
  { rewrite <- (length_fmap snd samples). apply last_samples_min. }
  rewrite Hw1, Hw2. split; [exact Hstd1 | exact Hstd2].
Qed.

Lemma deviations_of_active_window_witness :
  exists s,
    run (Reset_Sensor demoSensor) scenario = Some s /\
    let k := Z.min (sampleCount s) 25 in
    let psWindow := last_samples (Z.to_nat k) scenario.*1 in
    let alsWindow := last_samples (Z.to_nat k) scenario.*2 in
    psSTD s =
      deviation (reverse psWindow)
        (Double.of_Z (psWindowSum s) / Double.of_Z k)%float /\
    alsSTD s =
      deviation (reverse alsWindow)
        (Double.of_Z (alsWindowSum s) / Double.of_Z k)%float.
Proof.
  apply (deviations_of_active_window demoSensor scenario).
  - vm_compute. discriminate.
  - u16_list.
  - u16_list.
  - vm_compute. split; discriminate.
Defined.
